(** * chart: a shallow embedding of [src/main.py]

    The CSV chart tool reads a CSV table, chooses one of three chart
    shapes from the column count and renders it with summary statistics.
    This development embeds the ingestion pipeline ([read_csv_data],
    [parse_csv]), the chart-type decision of [main] and the three
    renderers ([create_histogram], [create_scatter_plot],
    [create_hexbin_plot]) and states the properties of the specification
    over them.

    Python values are modelled as follows.
    - [str] is [string]; a character stands for its code point (below 256).
    - [float] and NumPy's [float64] are the kernel's binary64 numbers
      ([PrimFloat.float]), so arithmetic rounds as it does in Python.
    - An exception is a class with a message; a call that may raise
      returns a [result].
    - A [DataFrame] is the ordered list of its named columns; a renderer
      that assigns to [df[col]] returns the table it leaves behind, since
      the caller holds the same object.
    - The statistics follow pandas on NumPy ([Stats]: missing values
      left out, NumPy's order of summation), and the drawing call of the
      histogram is modelled where it refuses its data ([Mpl]).
    - Library calls whose code is outside the repository ([pd.read_csv],
      [csv.reader], [float], the scalar parser under [pd.to_numeric],
      [Axes.hexbin]) are parameters of the sections below; executable
      instances for plain decimal, quote-free input are given at the end
      of the definitions for concrete runs. *)

From Stdlib Require Import List String Ascii ZArith Bool Arith Lia.
From Stdlib Require Import DecimalString.
From Stdlib Require DecimalNat DecimalFacts Lists.Finite.
From Stdlib Require Import Floats.
Import ListNotations.

Open Scope list_scope.
Open Scope string_scope.

(** ** Exceptions and results *)

Module Py.

(** The exception classes the program raises, catches or lets through. *)
Inductive exn_class :=
| ValueError
| IndexError
| TypeError
| OverflowError
| ParserError          (* pandas.errors.ParserError, a ValueError *)
| EmptyDataError       (* pandas.errors.EmptyDataError, a ValueError *)
| UnicodeDecodeError   (* a ValueError *)
| KeyError
| UnboundLocalError
| ClickException
| ClickAbort
| KeyboardInterrupt.   (* a BaseException, not an Exception *)

Record exn := mkExn { exn_cls : exn_class; exn_msg : string }.

(** [isinstance(e, Exception)]: what [except Exception] catches. *)
Definition is_Exception (e : exn) : bool :=
  match exn_cls e with
  | KeyboardInterrupt => false
  | _ => true
  end.

(** [isinstance(e, ValueError)]: what [except ValueError] catches. *)
Definition is_ValueError (e : exn) : bool :=
  match exn_cls e with
  | ValueError | ParserError | EmptyDataError | UnicodeDecodeError => true
  | _ => false
  end.

(** A parse failure of the tokenizer: rows of inconsistent length or
    malformed quoting. *)
Definition is_structural (e : exn) : bool :=
  match exn_cls e with
  | ParserError => true
  | _ => false
  end.

Inductive result (A : Type) :=
| Ok (a : A)
| Raise (e : exn).
Arguments Ok {A} a.
Arguments Raise {A} e.

Definition bind {A B} (r : result A) (k : A -> result B) : result B :=
  match r with
  | Ok a => k a
  | Raise e => Raise e
  end.

Definition raises {A} (r : result A) : bool :=
  match r with Ok _ => false | Raise _ => true end.

End Py.
Export Py.

Notation "x <- r ;; k" := (bind r (fun x => k))
  (at level 61, r at next level, right associativity).

(** ** Strings *)

Definition str_of_nat (n : nat) : string := NilZero.string_of_uint (Nat.to_uint n).
Definition str_of_Z (z : Z) : string := NilZero.string_of_int (Z.to_int z).

Definition dquote : ascii := ascii_of_nat 34.

(** The line feed, written [\n] in the source. *)
Definition nl : string := String (ascii_of_nat 10) EmptyString.

Fixpoint repeat_char (c : ascii) (n : nat) : string :=
  match n with
  | O => EmptyString
  | S k => String c (repeat_char c k)
  end.

(** [str.isspace] on one character: tab to carriage return, the four
    separators 0x1c-0x1f, space, NEL and the no-break space. *)
Definition py_isspace (c : ascii) : bool :=
  let n := nat_of_ascii c in
  (((9 <=? n) && (n <=? 13)) || ((28 <=? n) && (n <=? 32))
   || (n =? 133) || (n =? 160))%nat.

Fixpoint lstrip (s : string) : string :=
  match s with
  | EmptyString => EmptyString
  | String c r => if py_isspace c then lstrip r else s
  end.

Fixpoint rstrip (s : string) : string :=
  match s with
  | EmptyString => EmptyString
  | String c r =>
      match rstrip r with
      | EmptyString => if py_isspace c then EmptyString else String c EmptyString
      | r' => String c r'
      end
  end.

(** [s.strip()] *)
Definition strip (s : string) : string := rstrip (lstrip s).

Fixpoint all_space (s : string) : bool :=
  match s with
  | EmptyString => true
  | String c r => py_isspace c && all_space r
  end.

(** The truth value of a string: [not s] holds of the empty string only. *)
Definition truthy (s : string) : bool :=
  match s with EmptyString => false | _ => true end.

Fixpoint drop_chars (n : nat) (s : string) : string :=
  match n, s with
  | O, _ => s
  | S k, EmptyString => EmptyString
  | S k, String _ r => drop_chars k r
  end.

(** [s.title()] for the lower-case words the program applies it to. *)
Definition title_case (s : string) : string :=
  match s with
  | EmptyString => EmptyString
  | String c r =>
      let n := nat_of_ascii c in
      String (if ((97 <=? n) && (n <=? 122))%nat then ascii_of_nat (n - 32) else c) r
  end.

(** ** Floating point *)

Module F.

Definition zero : float := 0%float.
Definition one : float := 1%float.
Definition neg_zero : float := (-0)%float.
Definition nan : float := PrimFloat.nan.

(** An integer as a [float64], rounded to nearest even. *)
Definition of_Z (z : Z) : float :=
  SF2Prim (binary_normalize FloatOps.prec FloatOps.emax z 0 false).

Definition of_nat (n : nat) : float := of_Z (Z.of_nat n).

Definition isnan (x : float) : bool := PrimFloat.is_nan x.

(** The eight partial sums of NumPy's unrolled summation loop. *)
Record acc8 := mkAcc8 {
  r0 : float; r1 : float; r2 : float; r3 : float;
  r4 : float; r5 : float; r6 : float; r7 : float
}.

(** The loop over the full groups of eight that follow the first: each
    value is added to the partial sum of its position; what is left, at
    most seven values, is returned with the partial sums. *)
Fixpoint unrolled (r : acc8) (l : list float) : acc8 * list float :=
  match l with
  | a0 :: a1 :: a2 :: a3 :: a4 :: a5 :: a6 :: a7 :: rest =>
      unrolled (mkAcc8 (PrimFloat.add (r0 r) a0) (PrimFloat.add (r1 r) a1)
                       (PrimFloat.add (r2 r) a2) (PrimFloat.add (r3 r) a3)
                       (PrimFloat.add (r4 r) a4) (PrimFloat.add (r5 r) a5)
                       (PrimFloat.add (r6 r) a6) (PrimFloat.add (r7 r) a7))
               rest
  | _ => (r, l)
  end.

(** The sum of a block of at most 128 values: below eight values in
    sequence, from a zero (the negative one in NumPy's loop; its sign
    does not show once the sum is added to the identity of the
    reduction); otherwise eight partial sums, combined as a tree, and
    the values left over added in sequence. *)
Definition block_sum (l : list float) : float :=
  match l with
  | a0 :: a1 :: a2 :: a3 :: a4 :: a5 :: a6 :: a7 :: rest =>
      let (r, tail) := unrolled (mkAcc8 a0 a1 a2 a3 a4 a5 a6 a7) rest in
      fold_left PrimFloat.add tail
        (PrimFloat.add
           (PrimFloat.add (PrimFloat.add (r0 r) (r1 r)) (PrimFloat.add (r2 r) (r3 r)))
           (PrimFloat.add (PrimFloat.add (r4 r) (r5 r)) (PrimFloat.add (r6 r) (r7 r))))
  | _ => fold_left PrimFloat.add l neg_zero
  end.

(** NumPy's pairwise summation: a list of more than 128 values is cut
    at half its length, rounded down to a multiple of eight, and the
    sums of the two parts are added. [fuel] bounds the depth of the
    cuts; the length of the list is always enough. *)
Fixpoint pairwise_sum (fuel : nat) (l : list float) : float :=
  match fuel with
  | O => block_sum l
  | S f =>
      let n := List.length l in
      if (n <=? 128)%nat then block_sum l
      else
        let n2 := (n / 2 - (n / 2) mod 8)%nat in
        PrimFloat.add (pairwise_sum f (firstn n2 l)) (pairwise_sum f (skipn n2 l))
  end.

(** [np.add.reduce] over a contiguous array of [float64] ([arr.sum()]):
    the identity 0 plus the pairwise sum of the values. Below eight
    values this is the sum in sequence. *)
Definition sum (l : list float) : float :=
  PrimFloat.add zero (pairwise_sum (List.length l) l).

(** The values of [l] in runs of [k]; [fuel] bounds the number of runs. *)
Fixpoint chunks (fuel k : nat) (l : list float) : list (list float) :=
  match fuel, l with
  | _, [] => []
  | O, _ => [l]
  | S f, _ => firstn k l :: chunks f k (skipn k l)
  end.

(** The number of values NumPy's iterator casts at a time. *)
Definition bufsize : nat := 2 ^ 13.

(** [arr.sum(dtype=np.float64)] on an array of [int64], given as the
    values cast: the iterator casts [bufsize] values at a time, and the
    pairwise sum of each bufferful is added to the running sum, which
    starts from the identity 0. *)
Definition sum_cast (l : list float) : float :=
  fold_left (fun acc run => PrimFloat.add acc (pairwise_sum (List.length run) run))
            (chunks (List.length l) bufsize l) zero.

(** The products of two rows added in sequence. NumPy hands the product
    of the centred rows to the BLAS library, which fixes no order of
    summation. *)
Definition dot (a b : list float) : float :=
  fold_left (fun acc p => PrimFloat.add acc (PrimFloat.mul (fst p) (snd p)))
            (combine a b) zero.

(** The decimal digits of [q], left-padded with zeros to [w] digits. *)
Definition zpad (w : nat) (q : Z) : string :=
  let d := str_of_Z q in
  repeat_char "0"%char (w - String.length d) ++ d.

(** The integer nearest to [num / den], ties to even ([den > 0]). *)
Definition round_half_even (num den : Z) : Z :=
  let q := (num / den)%Z in
  let r := (num mod den)%Z in
  if (den <? 2 * r)%Z then (q + 1)%Z
  else if ((2 * r =? den) && Z.odd q)%Z%bool then (q + 1)%Z
  else q.

(** [format(x, '.<p>f')] for [p > 0]: the exact binary value rounded
    half-even to [p] decimals. *)
Definition format_f (p : nat) (x : float) : string :=
  match Prim2SF x with
  | S754_nan => "nan"
  | S754_infinity s => if s then "-inf" else "inf"
  | S754_zero s => (if s then "-" else "") ++ "0." ++ repeat_char "0"%char p
  | S754_finite s m e =>
      let scale := (10 ^ Z.of_nat p)%Z in
      let q := if (0 <=? e)%Z
               then (Zpos m * scale * 2 ^ e)%Z
               else round_half_even (Zpos m * scale) (2 ^ (- e))%Z in
      (if s then "-" else "") ++ str_of_Z (q / scale)%Z ++ "."
        ++ zpad p (q mod scale)%Z
  end.

(** [int(x)]: truncation toward zero; not-a-number and the infinities
    raise. *)
Definition to_int (x : float) : result Z :=
  match Prim2SF x with
  | S754_nan => Raise (mkExn ValueError "cannot convert float NaN to integer")
  | S754_infinity _ =>
      Raise (mkExn OverflowError "cannot convert float infinity to integer")
  | S754_zero _ => Ok 0%Z
  | S754_finite s m e =>
      let a := if (0 <=? e)%Z then (Zpos m * 2 ^ e)%Z
               else (Zpos m / 2 ^ (- e))%Z in
      Ok (if s then (- a)%Z else a)
  end.

(** [np.isfinite] *)
Definition isfinite (x : float) : bool :=
  match Prim2SF x with
  | S754_zero _ | S754_finite _ _ _ => true
  | _ => false
  end.

(** [num / den] compared with [10 ^ k]. *)
Definition cmp_pow10 (num den k : Z) : comparison :=
  if (0 <=? k)%Z then (num ?= den * 10 ^ k)%Z else (num * 10 ^ (- k) ?= den)%Z.

(** The least [k] from the start on with [num / den < 10 ^ k], or
    [<=] when the bound itself is excluded. *)
Fixpoint find_k (fuel : nat) (num den : Z) (incl : bool) (k : Z) : Z :=
  match fuel with
  | O => k
  | S f =>
      match cmp_pow10 num den k with
      | Lt => k
      | Eq => if incl then (k + 1)%Z else k
      | Gt => find_k f num den incl (k + 1)%Z
      end
  end.

(** The digits of [r / s < 1] up to the first at which what is left
    lies within the margin [mm / s] below or [mp / s] above; the last
    digit is rounded to the nearer end, to even on a tie. *)
Fixpoint gen_digits (fuel : nat) (r s mp mm : Z) (incl : bool) : list Z :=
  match fuel with
  | O => []
  | S f =>
      let r10 := (r * 10)%Z in
      let mp := (mp * 10)%Z in
      let mm := (mm * 10)%Z in
      let d := (r10 / s)%Z in
      let r' := (r10 mod s)%Z in
      let low := if incl then (r' <=? mm)%Z else (r' <? mm)%Z in
      let high := if incl then (s <=? r' + mp)%Z else (s <? r' + mp)%Z in
      match low, high with
      | false, false => d :: gen_digits f r' s mp mm incl
      | true, false => [d]
      | false, true => [(d + 1)%Z]
      | true, true =>
          match (2 * r' ?= s)%Z with
          | Lt => [d]
          | Gt => [(d + 1)%Z]
          | Eq => [if Z.even d then d else (d + 1)%Z]
          end
      end
  end.

(** The shortest decimal digits that read back as [m * 2 ^ e], with the
    position of the decimal point: the value is [0.d1 d2 ... * 10 ^ k].
    The margins are half the distance to the neighbouring floats, the
    lower one halved again at a power of two; they belong to the
    interval when [m] is even. *)
Definition shortest_digits (m : positive) (e : Z) : list Z * Z :=
  let incl := Z.even (Zpos m) in
  let narrow := ((Zpos m =? 2 ^ 52) && (-1074 <? e))%Z%bool in
  let '(r, s, mp, mm) :=
    if (0 <=? e)%Z then
      if narrow then (Zpos m * 2 ^ e * 4, 4, 2 ^ e * 2, 2 ^ e)%Z
      else (Zpos m * 2 ^ e * 2, 2, 2 ^ e, 2 ^ e)%Z
    else
      if narrow then (Zpos m * 4, 2 ^ (- e) * 4, 2, 1)%Z
      else (Zpos m * 2, 2 ^ (- e) * 2, 1, 1)%Z in
  let k := find_k 700 (r + mp) s incl (-330) in
  let '(r, s, mp, mm) :=
    if (0 <=? k)%Z then (r, s * 10 ^ k, mp, mm)%Z
    else (r * 10 ^ (- k), s, mp * 10 ^ (- k), mm * 10 ^ (- k))%Z in
  (gen_digits 20 r s mp mm incl, k).

Definition digits_str (ds : list Z) : string :=
  fold_right (fun d acc => str_of_Z d ++ acc) "" ds.

(** [str(x)] of a float: the shortest digits that read back as [x],
    with an exponent when the decimal point lies more than 16 places to
    the right of the first digit or more than 3 to its left. *)
Definition repr (x : float) : string :=
  match Prim2SF x with
  | S754_nan => "nan"
  | S754_infinity s => if s then "-inf" else "inf"
  | S754_zero s => if s then "-0.0" else "0.0"
  | S754_finite s m e =>
      let (ds, decpt) := shortest_digits m e in
      let n := Z.of_nat (List.length ds) in
      let body :=
        if ((decpt <=? -4) || (16 <? decpt))%Z%bool then
          let mant := match ds with
                      | [] => ""
                      | [d] => str_of_Z d
                      | d :: r => str_of_Z d ++ "." ++ digits_str r
                      end in
          let ex := (decpt - 1)%Z in
          mant ++ "e" ++ (if (ex <? 0)%Z then "-" else "+")
               ++ (if (Z.abs ex <? 10)%Z then "0" else "") ++ str_of_Z (Z.abs ex)
        else if (decpt <=? 0)%Z then
          "0." ++ repeat_char "0"%char (Z.to_nat (- decpt)) ++ digits_str ds
        else if (decpt <? n)%Z then
          digits_str (firstn (Z.to_nat decpt) ds) ++ "."
            ++ digits_str (skipn (Z.to_nat decpt) ds)
        else
          digits_str ds ++ repeat_char "0"%char (Z.to_nat (decpt - n)) ++ ".0" in
      (if s then "-" else "") ++ body
  end.

End F.

(** ** Tables *)

(** A scalar that the numeric parser produces from one cell. *)
Inductive scalar :=
| SInt (z : Z)
| SFloat (x : float).

Definition scalar_float (s : scalar) : float :=
  match s with
  | SInt z => F.of_Z z
  | SFloat x => x
  end.

Definition scalar_is_int (s : scalar) : bool :=
  match s with SInt _ => true | SFloat _ => false end.

Definition scalar_int (s : scalar) : Z :=
  match s with SInt z => z | SFloat _ => 0%Z end.

(** A column (a pandas [Series]) with its dtype: [int64], [float64] or
    [object]. A cell of an object column is a string, or missing. *)
Inductive column :=
| ColInt (vs : list Z)
| ColFloat (vs : list float)
| ColObj (vs : list (option string)).

(** [pd.api.types.is_numeric_dtype] on a column. *)
Definition col_is_numeric (c : column) : bool :=
  match c with
  | ColInt _ | ColFloat _ => true
  | ColObj _ => false
  end.

(** The values of a numeric column as [float64], as the statistics and
    the plotting calls read them. *)
Definition col_values (c : column) : list float :=
  match c with
  | ColInt vs => map F.of_Z vs
  | ColFloat vs => vs
  | ColObj _ => []
  end.

(** The table: [df.columns] paired with the data, and [len(df)]. *)
Record DataFrame := mkDF {
  df_cols : list (string * column);
  df_len : nat
}.

Definition columns (df : DataFrame) : list string := map fst (df_cols df).

(** [df[name]] is a Series when one column bears the name and a
    DataFrame when several do. *)
Inductive selection :=
| SelSeries (c : column)
| SelFrame (cs : list column)
| SelMissing.

Definition getitem (df : DataFrame) (name : string) : selection :=
  match filter (fun p => String.eqb (fst p) name) (df_cols df) with
  | [] => SelMissing
  | [p] => SelSeries (snd p)
  | ps => SelFrame (map snd ps)
  end.

(** [df[name] = c]: the column of that name is replaced in place. *)
Definition setitem (df : DataFrame) (name : string) (c : column) : DataFrame :=
  mkDF (map (fun p => if String.eqb (fst p) name then (fst p, c) else p)
            (df_cols df))
       (df_len df).

Definition is_numeric_dtype (s : selection) : bool :=
  match s with
  | SelSeries c => col_is_numeric c
  | _ => false
  end.

(** [pd.DataFrame(data_rows, columns=headers)] over rows of strings: an
    empty row list gives empty columns; otherwise the width of the data
    is that of its longest row, shorter rows are padded with missing
    cells, and a width other than the number of headers is refused. *)
Definition frame_of_rows (data_rows : list (list string)) (headers : list string)
  : result DataFrame :=
  match data_rows with
  | [] => Ok (mkDF (map (fun h => (h, ColObj [])) headers) 0)
  | _ =>
      let width := fold_right Nat.max 0 (map (@List.length string) data_rows) in
      if (width =? List.length headers)%nat then
        Ok (mkDF (map (fun ih => (snd ih,
                         ColObj (map (fun r => nth_error r (fst ih)) data_rows)))
                      (combine (seq 0 width) headers))
                 (List.length data_rows))
      else
        Raise (mkExn ValueError
                 (str_of_nat (List.length headers) ++ " columns passed, passed data had "
                    ++ str_of_nat width ++ " columns"))
  end.

(** ** Numeric coercion *)

Section Coercion.

(** The scalar parser under [pd.to_numeric]: an integer literal gives an
    [int64], any other number a [float64], anything else nothing. *)
Variable to_num : string -> option scalar.

(** The cells converted in order; the first cell that does not parse is
    reported with its position. *)
Fixpoint convert_cells (i : nat) (cells : list (option string))
  : string * nat + list scalar :=
  match cells with
  | [] => inr []
  | None :: r =>
      match convert_cells (S i) r with
      | inl e => inl e
      | inr vs => inr (SFloat F.nan :: vs)
      end
  | Some s :: r =>
      match to_num s with
      | None => inl (s, i)
      | Some v =>
          match convert_cells (S i) r with
          | inl e => inl e
          | inr vs => inr (v :: vs)
          end
      end
  end.

(** [pd.to_numeric] on a Series: a numeric Series is returned as it is;
    an object Series becomes [int64] when every cell is an integer and
    [float64] otherwise, and raises [ValueError] at the first cell that
    is not a number. *)
Definition to_numeric_col (c : column) : result column :=
  match c with
  | ColObj cells =>
      match convert_cells 0 cells with
      | inl (s, i) =>
          Raise (mkExn ValueError
                   ("Unable to parse string " ++ String dquote s
                      ++ String dquote " at position " ++ str_of_nat i))
      | inr vs =>
          if forallb scalar_is_int vs then Ok (ColInt (map scalar_int vs))
          else Ok (ColFloat (map scalar_float vs))
      end
  | _ => Ok c
  end.

(** [pd.to_numeric(df[col])]: a DataFrame is not an accepted argument,
    and the lookup of a name that is no column raises [KeyError]. *)
Definition to_numeric (s : selection) : result column :=
  match s with
  | SelSeries c => to_numeric_col c
  | SelFrame _ =>
      Raise (mkExn TypeError "arg must be a list, tuple, 1-d array, or Series")
  | SelMissing => Raise (mkExn KeyError "column not found")
  end.

End Coercion.

(** ** Statistics *)

Module Stats.

(** The values that are numbers. *)
Definition dropna (vs : list float) : list float :=
  filter (fun x => negb (F.isnan x)) vs.

(** The values with 0 in the place of each missing one. *)
Definition fillna0 (vs : list float) : list float :=
  map (fun x => if F.isnan x then F.zero else x) vs.

(** [Series.mean()] as pandas computes it on NumPy ([nanops.nanmean]):
    the missing values are set to 0 and left out of the count, and the
    sum is divided by the count; not a number without any value. *)
Definition mean (vs : list float) : float :=
  let count := List.length (dropna vs) in
  if (count =? 0)%nat then F.nan
  else PrimFloat.div (F.sum (fillna0 vs)) (F.of_nat count).

(** [Series.mean()] on a column of [int64]: no value is missing, and
    the values are cast to [float64] while they are summed. *)
Definition mean_int (vs : list Z) : float :=
  let count := List.length vs in
  if (count =? 0)%nat then F.nan
  else PrimFloat.div (F.sum_cast (map F.of_Z vs)) (F.of_nat count).

(** [Series.mean()] by the dtype of the column. *)
Definition col_mean (c : column) : float :=
  match c with
  | ColInt vs => mean_int vs
  | _ => mean (col_values c)
  end.

(** [Series.var()] with the default [ddof=1] ([nanops.nanvar]): the
    squared deviations from the mean, 0 at the missing values, summed
    and divided by [count - 1]; not a number when there are fewer than
    two values. A column of [int64] is cast to [float64] as a whole
    before anything is summed. (This is pandas on NumPy alone; the
    optional accelerator package, to which pandas hands the variance
    where it is installed, is not modelled.) *)
Definition var (vs : list float) : float :=
  let count := List.length (dropna vs) in
  if (count <=? 1)%nat then F.nan
  else
    let avg := PrimFloat.div (F.sum (fillna0 vs)) (F.of_nat count) in
    let sqr := map (fun x => if F.isnan x then F.zero
                             else let d := PrimFloat.sub avg x in PrimFloat.mul d d)
                   vs in
    PrimFloat.div (F.sum sqr) (F.of_nat (count - 1)).

(** [Series.std()]: the square root of [var]. *)
Definition std (vs : list float) : float := PrimFloat.sqrt (var vs).

(** [np.clip(c, -1, 1)]; a not-a-number stays one. *)
Definition clip1 (c : float) : float :=
  if F.isnan c then c
  else if PrimFloat.ltb c (-1)%float then (-1)%float
  else if PrimFloat.ltb 1%float c then 1%float
  else c.

(** [np.corrcoef(a, b)[0, 1]]: the covariance matrix of the centred
    rows scaled by [1 / (n - 1)] (by [1 / 0.0] when [n - 1 <= 0]), its
    off-diagonal entry divided by both standard deviations, clipped. *)
Definition corrcoef (a b : list float) : float :=
  let n := List.length a in
  let avg_a := PrimFloat.div (F.sum a) (F.of_nat n) in
  let avg_b := PrimFloat.div (F.sum b) (F.of_nat n) in
  let fact := if (n <=? 1)%nat then F.zero else F.of_nat (n - 1) in
  let da := map (fun x => PrimFloat.sub x avg_a) a in
  let db := map (fun x => PrimFloat.sub x avg_b) b in
  let scale := PrimFloat.div F.one fact in
  let c_aa := PrimFloat.mul (F.dot da da) scale in
  let c_bb := PrimFloat.mul (F.dot db db) scale in
  let c_ab := PrimFloat.mul (F.dot da db) scale in
  clip1 (PrimFloat.div (PrimFloat.div c_ab (PrimFloat.sqrt c_aa))
                       (PrimFloat.sqrt c_bb)).

(** [x.corr(y)] (Pearson): the pairs with a missing value are dropped;
    not a number when no pair is left. *)
Definition corr (xs ys : list float) : float :=
  let ps := filter (fun p => negb (F.isnan (fst p)) && negb (F.isnan (snd p)))
                   (combine xs ys) in
  match ps with
  | [] => F.nan
  | _ => corrcoef (map fst ps) (map snd ps)
  end.

(** [arr.max()]: an empty array has no maximum; a not-a-number wins. *)
Definition max (vs : list float) : result float :=
  match vs with
  | [] => Raise (mkExn ValueError
                   "zero-size array to reduction operation maximum which has no identity")
  | v :: r =>
      Ok (fold_left (fun acc x =>
                       if F.isnan acc then acc
                       else if F.isnan x then x
                       else if PrimFloat.ltb acc x then x else acc) r v)
  end.

End Stats.

(** ** The drawing call of the histogram *)

Module Mpl.

(** [np.nanmin] and [np.nanmax] of a non-empty array: over the values
    that are numbers; not a number when there is none. *)
Definition nanmin (x : list float) : float :=
  match Stats.dropna x with
  | [] => F.nan
  | v :: r => fold_left (fun a b => if PrimFloat.ltb b a then b else a) r v
  end.

Definition nanmax (x : list float) : float :=
  match Stats.dropna x with
  | [] => F.nan
  | v :: r => fold_left (fun a b => if PrimFloat.ltb a b then b else a) r v
  end.

(** [a.min()] and [a.max()]: a not-a-number wins. *)
Definition amin (x : list float) : float :=
  if existsb F.isnan x then F.nan else nanmin x.

Definition amax (x : list float) : float :=
  if existsb F.isnan x then F.nan else nanmax x.

(** Python's [min(a, b)] and [max(a, b)]: the first argument unless the
    second is smaller, or larger. *)
Definition py_min (a b : float) : float := if PrimFloat.ltb b a then b else a.
Definition py_max (a b : float) : float := if PrimFloat.ltb a b then b else a.

(** The range [Axes.hist] hands to [np.histogram] when none is given:
    the least and the largest number of the data, when the data holds a
    number. *)
Definition bin_range (x : list float) : option (float * float) :=
  match x with
  | [] => None
  | _ =>
      let xmin := py_min PrimFloat.infinity (nanmin x) in
      let xmax := py_max PrimFloat.neg_infinity (nanmax x) in
      if PrimFloat.leb xmin xmax then Some (xmin, xmax) else None
  end.

(** [ax.hist(x, bins=bins)], of which the outcome is kept: the call
    hands the data to [np.histogram], which refuses a range, given or
    taken from the data, that is not finite. Empty data are binned over
    [0, 1]. *)
Definition hist (x : list float) (bins : nat) : result unit :=
  match bin_range x with
  | Some (first_edge, last_edge) =>
      if PrimFloat.ltb last_edge first_edge then
        Raise (mkExn ValueError "max must be larger than min in range parameter.")
      else if F.isfinite first_edge && F.isfinite last_edge then Ok tt
      else
        Raise (mkExn ValueError
                 ("supplied range of [" ++ F.repr first_edge ++ ", "
                    ++ F.repr last_edge ++ "] is not finite"))
  | None =>
      match x with
      | [] => Ok tt
      | _ =>
          let first_edge := amin x in
          let last_edge := amax x in
          if F.isfinite first_edge && F.isfinite last_edge then Ok tt
          else
            Raise (mkExn ValueError
                     ("autodetected range of [" ++ F.repr first_edge ++ ", "
                        ++ F.repr last_edge ++ "] is not finite"))
      end
  end.

End Mpl.

(** ** Figures *)

(** What a renderer draws. *)
Inductive plot :=
| Hist (values : list float) (bins : nat)
| Scatter (xs ys : list float)
| Hexbin (xs ys : list float) (gridsize : Z).

(** The figure a renderer returns: the drawing, the axis labels, the
    title, the label of the colour bar and the text box with the
    statistics, when there is one. Colours and layout are left out. *)
Record Figure := mkFig {
  fig_plot : plot;
  fig_xlabel : string;
  fig_ylabel : string;
  fig_title : string;
  fig_colorbar : option string;
  fig_text : option string
}.

(** ** Renderers *)

(** A renderer runs on the caller's table and may assign to its columns:
    a computation takes the table and returns its outcome with the table
    as it leaves it, also when it raises. *)
Definition M (A : Type) : Type := DataFrame -> result A * DataFrame.

Definition ret {A} (a : A) : M A := fun df => (Ok a, df).
Definition throw {A} (e : exn) : M A := fun df => (Raise e, df).
Definition lift {A} (r : result A) : M A := fun df => (r, df).
Definition get_df : M DataFrame := fun df => (Ok df, df).
Definition put_df (df' : DataFrame) : M unit := fun _ => (Ok tt, df').

Definition mbind {A B} (m : M A) (k : A -> M B) : M B :=
  fun df =>
    match m df with
    | (Ok a, df') => k a df'
    | (Raise e, df') => (Raise e, df')
    end.

Notation "x <~ m ;; k" := (mbind m (fun x => k))
  (at level 61, m at next level, right associativity).
Notation "m ;;; k" := (mbind m (fun _ => k))
  (at level 61, right associativity).

(** A [try: ... except Exception: pass] around the text of the
    statistics: the text when the body returns, none when it raises an
    [Exception]. *)
Definition best_effort (body : result string) : result (option string) :=
  match body with
  | Ok t => Ok (Some t)
  | Raise e => if is_Exception e then Ok None else Raise e
  end.

(** [title if title else default] *)
Definition title_or (title : option string) (default : string) : string :=
  match title with
  | Some t => if truthy t then t else default
  | None => default
  end.

Section Renderers.

Variable to_num : string -> option scalar.

(** The bin magnitudes [hb.get_array()] of [ax.hexbin(x, y, gridsize)]. *)
Variable hexbin_array : list float -> list float -> Z -> list float.

(** The numeric check of one column:
<<
    if not pd.api.types.is_numeric_dtype(df[col]):
        try:
            df[col] = pd.to_numeric(df[col])
        except ValueError:
            raise ValueError(msg)
>> *)
Definition ensure_numeric (col : string) (msg : string) : M unit :=
  df <~ get_df ;;
  if is_numeric_dtype (getitem df col) then ret tt
  else
    match to_numeric to_num (getitem df col) with
    | Ok c => put_df (setitem df col c)
    | Raise e => if is_ValueError e then throw (mkExn ValueError msg) else throw e
    end.

(** The values of [df[col]] handed to the statistics and the plot. *)
Definition series_values (df : DataFrame) (col : string) : list float :=
  match getitem df col with
  | SelSeries c => col_values c
  | _ => []
  end.

(** [df[col].mean()] *)
Definition series_mean (df : DataFrame) (col : string) : float :=
  match getitem df col with
  | SelSeries c => Stats.col_mean c
  | _ => F.nan
  end.

Definition create_histogram (title : option string) : M Figure :=
  df <~ get_df ;;
  match columns df with
  | [id_col; value_col] =>
      ensure_numeric value_col
        ("Value column '" ++ value_col ++ "' must be numeric") ;;;
      df <~ get_df ;;
      let values := series_values df value_col in
      lift (Mpl.hist values 20) ;;;
      let mean_val := series_mean df value_col in
      let std_val := Stats.std values in
      let stats_text :=
        "Mean: " ++ F.format_f 2 mean_val ++ nl
        ++ "Std: " ++ F.format_f 2 std_val ++ nl
        ++ "Count: " ++ str_of_nat (df_len df) in
      ret (mkFig (Hist values 20) value_col "Frequency"
                 (title_or title ("Distribution of " ++ value_col))
                 None (Some stats_text))
  | cols =>
      throw (mkExn ValueError
               ("Expected 2 columns for histogram, got "
                  ++ str_of_nat (List.length cols)))
  end.

Definition create_hexbin_plot (title : option string) (gridsize : Z) : M Figure :=
  df <~ get_df ;;
  match columns df with
  | [id_col; x_col; y_col] =>
      ensure_numeric x_col
        ("Column '" ++ x_col ++ "' must be numeric for hexbin plot") ;;;
      ensure_numeric y_col
        ("Column '" ++ y_col ++ "' must be numeric for hexbin plot") ;;;
      df <~ get_df ;;
      let xs := series_values df x_col in
      let ys := series_values df y_col in
      let hb := hexbin_array xs ys gridsize in
      stats <~ lift (best_effort (
        let correlation := Stats.corr xs ys in
        let total_points := df_len df in
        max_density <- Stats.max hb ;;
        density <- F.to_int max_density ;;
        Ok ("Correlation: " ++ F.format_f 3 correlation ++ nl
            ++ "Total Points: " ++ str_of_nat total_points ++ nl
            ++ "Max Density: " ++ str_of_Z density))) ;;
      ret (mkFig (Hexbin xs ys gridsize) x_col y_col
                 (title_or title (y_col ++ " vs " ++ x_col ++ " (Density)"))
                 (Some "Point Density") stats)
  | cols =>
      throw (mkExn ValueError
               ("Expected 3 columns for hexbin plot, got "
                  ++ str_of_nat (List.length cols)))
  end.

Definition create_scatter_plot (title : option string) : M Figure :=
  df <~ get_df ;;
  match columns df with
  | [id_col; x_col; y_col] =>
      ensure_numeric x_col
        ("Column '" ++ x_col ++ "' must be numeric for scatter plot") ;;;
      ensure_numeric y_col
        ("Column '" ++ y_col ++ "' must be numeric for scatter plot") ;;;
      df <~ get_df ;;
      let xs := series_values df x_col in
      let ys := series_values df y_col in
      stats <~ lift (best_effort (
        let correlation := Stats.corr xs ys in
        Ok ("Correlation: " ++ F.format_f 3 correlation ++ nl
            ++ "Points: " ++ str_of_nat (df_len df)))) ;;
      ret (mkFig (Scatter xs ys) x_col y_col
                 (title_or title (y_col ++ " vs " ++ x_col))
                 None stats)
  | cols =>
      throw (mkExn ValueError
               ("Expected 3 columns for scatter plot, got "
                  ++ str_of_nat (List.length cols)))
  end.

End Renderers.

(** ** Loading *)

(** A text stream: [click.File('r')] and [StringIO] objects, with the
    read position. *)
Record stream := mkStream {
  st_name : string;
  st_content : string;
  st_pos : nat
}.

(** What is left to read from the current position. *)
Definition remaining (f : stream) : string := drop_chars (st_pos f) (st_content f).

Definition StringIO (content : string) : stream := mkStream "" content 0.

(** [f.seek(0)] *)
Definition seek0 (f : stream) : stream := mkStream (st_name f) (st_content f) 0.

Definition read_csv_data (file_input : stream) : result stream :=
  if String.eqb (st_name file_input) "<stdin>" then
    let content := remaining file_input in
    if negb (truthy (strip content)) then
      Raise (mkExn ValueError "No data provided via stdin")
    else Ok (StringIO content)
  else Ok file_input.

Section Loader.

(** [pd.read_csv] on the text of a stream. *)
Variable read_csv : string -> result DataFrame.

(** [list(csv.reader(f))]: the rows of fields; a blank line is an empty
    row. *)
Variable csv_reader : string -> result (list (list string)).

(** [float(s)]: the number, or nothing where Python raises
    [ValueError]. *)
Variable py_float : string -> option float.

Variable to_num : string -> option scalar.

(** [Column_1 .. Column_n] *)
Definition synthesized_headers (n : nat) : list string :=
  map (fun i => "Column_" ++ str_of_nat (i + 1)) (seq 0 n).

(** The header decision of the manual parse:
<<
    if not rows: raise ValueError("CSV file is empty")
    try:
        float(rows[0][0]); has_header = False
    except ValueError:
        has_header = True
>>
    followed by the choice of [headers] and [data_rows]. Indexing an
    empty first row raises [IndexError], which the [try] does not
    catch. *)
Definition split_header (rows : list (list string))
  : result (list string * list (list string)) :=
  match rows with
  | [] => Raise (mkExn ValueError "CSV file is empty")
  | row0 :: rest =>
      match row0 with
      | [] => Raise (mkExn IndexError "list index out of range")
      | first :: _ =>
          let has_header :=
            match py_float first with
            | Some _ => false
            | None => true
            end in
          if has_header then Ok (row0, rest)
          else Ok (synthesized_headers (List.length row0), rows)
      end
  end.

(** The loop over [df.columns] that converts what converts:
<<
    try: df[col] = pd.to_numeric(df[col])
    except ValueError: pass
>> *)
Fixpoint convert_columns (cols : list string) (df : DataFrame) : result DataFrame :=
  match cols with
  | [] => Ok df
  | col :: r =>
      match to_numeric to_num (getitem df col) with
      | Ok c => convert_columns r (setitem df col c)
      | Raise e => if is_ValueError e then convert_columns r df else Raise e
      end
  end.

(** The body of the [except] branch of [parse_csv]. *)
Definition manual_parse (data_source : stream) : result DataFrame :=
  rows <- csv_reader (remaining (seek0 data_source)) ;;
  hd <- split_header rows ;;
  df <- frame_of_rows (snd hd) (fst hd) ;;
  convert_columns (columns df) df.

Definition parse_csv (data_source : stream) : result DataFrame :=
  match read_csv (remaining data_source) with
  | Ok df => Ok df
  | Raise e => if is_Exception e then manual_parse data_source else Raise e
  end.

End Loader.

(** ** Choosing the chart *)

Inductive chart_type := auto | histogram | scatter | hexbin.

Definition chart_type_name (c : chart_type) : string :=
  match c with
  | auto => "auto"
  | histogram => "histogram"
  | scatter => "scatter"
  | hexbin => "hexbin"
  end.

(** The two errors of the decision, both raised as [ClickException]. *)
Definition AutoDetectionError (n : nat) : exn :=
  mkExn ClickException
    ("Auto-detection failed: " ++ str_of_nat n ++ " columns. "
       ++ "Use --chart-type to specify histogram, scatter, or hexbin").

Definition ColumnMismatchError (c : chart_type) (n : nat) : exn :=
  mkExn ClickException
    (match c with
     | histogram => "Histogram requires 2 columns, got " ++ str_of_nat n
     | _ => title_case (chart_type_name c) ++ " requires 3 columns, got "
              ++ str_of_nat n
     end).

(** "Determine chart type": [auto] is replaced by the column count's
    chart. *)
Definition determine_chart_type (c : chart_type) (n : nat) : result chart_type :=
  match c with
  | auto =>
      if (n =? 2)%nat then Ok histogram
      else if (n =? 3)%nat then Ok scatter
      else Raise (AutoDetectionError n)
  | _ => Ok c
  end.

(** "Validate chart type with data". *)
Definition validate_chart_type (c : chart_type) (n : nat) : result chart_type :=
  match c with
  | histogram => if negb (n =? 2)%nat then Raise (ColumnMismatchError c n) else Ok c
  | scatter | hexbin =>
      if negb (n =? 3)%nat then Raise (ColumnMismatchError c n) else Ok c
  | auto => Ok c
  end.

(** The chart type [main] renders for a request and a column count. *)
Definition select_chart (requested : chart_type) (n : nat) : result chart_type :=
  c <- determine_chart_type requested n ;;
  validate_chart_type c n.

(** ** The program *)

Section Main.

Variable read_csv : string -> result DataFrame.
Variable csv_reader : string -> result (list (list string)).
Variable py_float : string -> option float.
Variable to_num : string -> option scalar.
Variable hexbin_array : list float -> list float -> Z -> list float.

(** The [try] body of [main] up to the figure; saving and showing it are
    left to the output sink. *)
Definition main_body (file : stream) (title : option string)
    (requested : chart_type) (gridsize : Z) : result Figure :=
  data_source <- read_csv_data file ;;
  df <- parse_csv read_csv csv_reader py_float to_num data_source ;;
  c <- select_chart requested (List.length (columns df)) ;;
  match c with
  | histogram => fst (create_histogram to_num title df)
  | scatter => fst (create_scatter_plot to_num title df)
  | hexbin => fst (create_hexbin_plot to_num hexbin_array title gridsize df)
  | auto => Raise (mkExn UnboundLocalError "fig")
  end.

(** [main] with its handlers: an interrupt becomes [click.Abort], any
    other exception a [ClickException] with the same message. *)
Definition main (file : stream) (title : option string)
    (requested : chart_type) (gridsize : Z) : result Figure :=
  match main_body file title requested gridsize with
  | Ok fig => Ok fig
  | Raise e =>
      match exn_cls e with
      | KeyboardInterrupt => Raise (mkExn ClickAbort "")
      | _ => Raise (mkExn ClickException (exn_msg e))
      end
  end.

End Main.

(** ** Executable instances of the library calls

    Stand-ins for the parameters above on plain input: decimal literals
    with an optional sign and fraction, and comma-separated text without
    quotes. They serve the concrete runs below; the general theorems do
    not depend on them. *)

Module Simple.

Definition digit_of (c : ascii) : option Z :=
  let n := nat_of_ascii c in
  if ((48 <=? n) && (n <=? 57))%nat then Some (Z.of_nat (n - 48)) else None.

(** The digits of [s] read from the left onto [acc], with their number;
    nothing when a character is no digit. *)
Fixpoint digits (s : string) (acc : Z) (k : nat) : option (Z * nat) :=
  match s with
  | EmptyString => Some (acc, k)
  | String c r =>
      match digit_of c with
      | Some d => digits r (10 * acc + d)%Z (S k)
      | None => None
      end
  end.

(** [s] cut at its first occurrence of [sep]. *)
Fixpoint cut (sep : ascii) (s : string) : string * option string :=
  match s with
  | EmptyString => (EmptyString, None)
  | String c r =>
      if Ascii.eqb c sep then (EmptyString, Some r)
      else let (a, b) := cut sep r in (String c a, b)
  end.

(** A literal [[+-]digits[.digits]] as (negative, integer part, fraction
    digits, number of fraction digits). *)
Definition literal (s : string) : option (bool * Z * option (Z * nat)) :=
  let (neg, body) :=
    match s with
    | String "-"%char r => (true, r)
    | String "+"%char r => (false, r)
    | _ => (false, s)
    end in
  let (ip, fp) := cut "."%char body in
  match digits ip 0 0 with
  | Some (i, S _) =>
      match fp with
      | None => Some (neg, i, None)
      | Some f =>
          match digits f 0 0 with
          | Some fk => Some (neg, i, Some fk)
          | None => None
          end
      end
  | _ => None
  end.

(** The value of a literal: the integer of all its digits over the power
    of ten of its fraction, one correctly rounded division. *)
Definition literal_float (l : bool * Z * option (Z * nat)) : float :=
  let '(neg, i, fp) := l in
  let x :=
    match fp with
    | None => F.of_Z i
    | Some (f, k) =>
        PrimFloat.div (F.of_Z (i * 10 ^ Z.of_nat k + f)) (F.of_Z (10 ^ Z.of_nat k))
    end in
  if neg then PrimFloat.opp x else x.

Definition py_float (s : string) : option float :=
  option_map literal_float (literal s).

Definition to_num (s : string) : option scalar :=
  match literal s with
  | Some (neg, i, None) => Some (SInt (if neg then - i else i)%Z)
  | Some l => Some (SFloat (literal_float l))
  | None => None
  end.

(** [s] split at every [sep]. *)
Fixpoint split (sep : ascii) (s : string) : list string :=
  match s with
  | EmptyString => [EmptyString]
  | String c r =>
      if Ascii.eqb c sep then EmptyString :: split sep r
      else
        match split sep r with
        | [] => [String c EmptyString]
        | w :: ws => String c w :: ws
        end
  end.

(** The lines of a text; a final line feed ends the last line. *)
Definition lines (s : string) : list string :=
  match rev (split (ascii_of_nat 10) s) with
  | EmptyString :: r => rev r
  | _ => split (ascii_of_nat 10) s
  end.

Definition row_of_line (l : string) : list string :=
  match l with
  | EmptyString => []
  | _ => split ","%char l
  end.

Definition csv_reader (s : string) : result (list (list string)) :=
  Ok (map row_of_line (lines s)).

(** The dtype the trusting parse infers for the cells of one column; an
    empty field is a missing value. *)
Definition infer_column (cells : list string) : column :=
  let obj := ColObj (map (fun s => match s with
                                   | EmptyString => None
                                   | _ => Some s
                                   end) cells) in
  match cells with
  | [] => obj
  | _ => match to_numeric_col to_num obj with
         | Ok c => c
         | Raise _ => obj
         end
  end.

(** The rows of a text that are not blank, each with the number of its
    line in the file. *)
Definition numbered_rows (s : string) : list (nat * list string) :=
  filter (fun r => negb (Nat.eqb (List.length (snd r)) 0))
         (combine (seq 1 (List.length (lines s))) (map row_of_line (lines s))).

(** The trusting parse on quote-free text whose header names are
    different and not empty and whose fields are none of the markers of
    a missing value other than the empty field. Blank lines are skipped,
    the first row is the header, and an input without rows has no
    columns to parse. The width [w] of the table is that of the header
    or of the first data row, whichever is longer: the [w - n] leading
    fields of every row are then the index of the row, which a table
    here does not carry, and the header names the fields after them. A
    later row longer than [w] is a tokenizing error, and a shorter row
    is padded with missing values. *)
Definition read_csv (s : string) : result DataFrame :=
  match numbered_rows s with
  | [] => Raise (mkExn EmptyDataError "No columns to parse from file")
  | (_, header) :: numbered =>
      let rows := map snd numbered in
      let n := List.length header in
      let w := match rows with
               | [] => n
               | r :: _ => Nat.max n (List.length r)
               end in
      match find (fun r => (w <? List.length (snd r))%nat) (tl numbered) with
      | Some (line, r) =>
          Raise (mkExn ParserError
                   ("Error tokenizing data. C error: Expected " ++ str_of_nat w
                      ++ " fields in line " ++ str_of_nat line ++ ", saw "
                      ++ str_of_nat (List.length r) ++ nl))
      | None =>
          Ok (mkDF (map (fun ih =>
                           (snd ih,
                            infer_column
                              (map (fun r => nth (w - n + fst ih) r EmptyString)
                                   rows)))
                        (combine (seq 0 n) header))
                   (List.length rows))
      end
  end.

(** The hexagonal binning is not modelled. An array without bins stands
    for it in runs that never reach the hexbin call. *)
Definition no_bins (xs ys : list float) (gridsize : Z) : list float := [].

(** The program on piped text, for a given binning. *)
Definition run (hexbin_array : list float -> list float -> Z -> list float)
    (content : string) (title : option string)
    (requested : chart_type) (gridsize : Z) : result Figure :=
  main read_csv csv_reader py_float to_num hexbin_array
       (mkStream "<stdin>" content 0) title requested gridsize.

End Simple.

(** ** Named errors and sample tables *)

(** The error of a renderer for a column that does not convert;
    [what] is "scatter plot" or "hexbin plot". *)
Definition NonNumericColumnError (col what : string) : exn :=
  mkExn ValueError ("Column '" ++ col ++ "' must be numeric for " ++ what).

(** The column-count error of a renderer. *)
Definition ExpectedColumnsError (k : nat) (what : string) (n : nat) : exn :=
  mkExn ValueError
    ("Expected " ++ str_of_nat k ++ " columns for " ++ what ++ ", got "
       ++ str_of_nat n).

(** The values of the column a conversion returned. *)
Definition values_of (r : result column) : option (list float) :=
  match r with
  | Ok c => Some (col_values c)
  | Raise _ => None
  end.

(** The tables of two and of three columns. *)
Definition table2 (id_col value_col : string) (cid c : column) (n : nat)
  : DataFrame :=
  mkDF [(id_col, cid); (value_col, c)] n.

Definition table3 (id_col x_col y_col : string) (cid cx cy : column) (n : nat)
  : DataFrame :=
  mkDF [(id_col, cid); (x_col, cx); (y_col, cy)] n.

(** A column passes the numeric check of a renderer when it is numeric
    or converts. *)
Definition coercible (to_num : string -> option scalar) (c : column) : bool :=
  negb (raises (to_numeric_col to_num c)).

(** What the check leaves in a column: its conversion when it is not
    numeric and converts, the column itself otherwise. *)
Definition checked (to_num : string -> option scalar) (c : column) : column :=
  if col_is_numeric c then c
  else match to_numeric_col to_num c with
       | Ok c' => c'
       | Raise _ => c
       end.

Module Examples.

(** [id,x,y] with [x = 1,2,3] and a constant [y = 5,5,5]. *)
Definition constant_y : DataFrame :=
  mkDF [("id", ColInt [1; 2; 3]); ("x", ColInt [1; 2; 3]);
        ("y", ColInt [5; 5; 5])]%Z 3.

(** [id,x,y] with a single row. *)
Definition single_row : DataFrame :=
  mkDF [("id", ColInt [1]); ("x", ColInt [1]); ("y", ColInt [2])]%Z 1.

(** [id,x,y] with [y = x]. *)
Definition diagonal : DataFrame :=
  mkDF [("id", ColInt [1; 2; 3]); ("x", ColInt [1; 2; 3]);
        ("y", ColInt [1; 2; 3])]%Z 3.

(** [id,x,y] with [y = 2 x]. *)
Definition linear : DataFrame :=
  mkDF [("id", ColInt [1; 2; 3]); ("x", ColInt [1; 2; 3]);
        ("y", ColInt [2; 4; 6])]%Z 3.

(** [id,x,y] with a textual [x] of numbers and a textual [y] of
    words. *)
Definition text_xy : DataFrame :=
  mkDF [("id", ColInt [1; 2]%Z); ("x", ColObj [Some "1"; Some "2"]);
        ("y", ColObj [Some "a"; Some "b"])] 2.

(** [id,x,y] with an [int64] x and a textual [y] of words. *)
Definition numeric_x_text_y : DataFrame :=
  mkDF [("id", ColInt [1; 2]%Z); ("x", ColInt [1; 2]%Z);
        ("y", ColObj [Some "a"; Some "b"])] 2.

(** [id,value] with the values [10, 20, 30]. *)
Definition values_10_20_30 : DataFrame :=
  mkDF [("id", ColInt [1; 2; 3]); ("value", ColInt [10; 20; 30])]%Z 3.

End Examples.

(** ** The renderer dispatch and the theme *)

(** The number of columns a chart type is drawn from. *)
Definition expected_columns (c : chart_type) : nat :=
  match c with
  | histogram => 2
  | _ => 3
  end.

(** "Create the appropriate chart": the renderer [main] calls for a
    resolved chart type. With [auto] no branch runs and [fig] is left
    unbound. *)
Definition render (to_num : string -> option scalar)
    (hexbin_array : list float -> list float -> Z -> list float)
    (c : chart_type) (title : option string) (gridsize : Z) : M Figure :=
  match c with
  | histogram => create_histogram to_num title
  | scatter => create_scatter_plot to_num title
  | hexbin => create_hexbin_plot to_num hexbin_array title gridsize
  | auto => throw (mkExn UnboundLocalError "fig")
  end.

(** [s.startswith(p)] *)
Fixpoint starts_with (p s : string) : bool :=
  match p, s with
  | EmptyString, _ => true
  | String a p', String b s' => Ascii.eqb a b && starts_with p' s'
  | String _ _, EmptyString => false
  end.

(** A renderer's column-count error: a [ValueError] whose message
    starts with "Expected ". *)
Definition is_column_count_error (r : result Figure) : bool :=
  match r with
  | Raise (mkExn ValueError m) => starts_with "Expected " m
  | _ => false
  end.

(** [EVERFOREST_COLORS], in the order of the source. *)
Definition EVERFOREST_COLORS : list (string * string) :=
  [("bg0", "#2d353b"); ("bg1", "#343f44"); ("bg2", "#3d484d");
   ("bg3", "#475258"); ("bg4", "#4f585e"); ("bg5", "#56635f");
   ("fg", "#d3c6aa"); ("red", "#e67e80"); ("orange", "#e69875");
   ("yellow", "#dbbc7f"); ("green", "#a7c080"); ("aqua", "#83c092");
   ("blue", "#7fbbb3"); ("purple", "#d699b6"); ("grey0", "#7a8478");
   ("grey1", "#859289"); ("grey2", "#9da9a0")].

(** [EVERFOREST_COLORS[key]] *)
Definition color (key : string) : result string :=
  match find (fun p => String.eqb (fst p) key) EVERFOREST_COLORS with
  | Some p => Ok (snd p)
  | None => Raise (mkExn KeyError key)
  end.

(** The colour entries [setup_everforest_theme] writes into
    [plt.rcParams], each with the palette key it reads. *)
Definition theme_colors : list (string * string) :=
  [("figure.facecolor", "bg0"); ("axes.facecolor", "bg1");
   ("axes.edgecolor", "grey1"); ("axes.labelcolor", "fg");
   ("text.color", "fg"); ("xtick.color", "fg"); ("ytick.color", "fg");
   ("grid.color", "bg3")].

(** The palette keys the renderers and the output step read: the bars
    and their edges and the text box of the histogram; the edges, the
    five colours of the density map, the colour bar and the text box of
    the hexbin plot; the points, their edges and the text box of the
    scatter plot; the face colour of the figure saved to the output
    path and of the one saved for the viewer. *)
Definition renderer_colors : list string :=
  ["green"; "bg3"; "bg2"; "fg";
   "bg3"; "bg1"; "blue"; "aqua"; "green"; "yellow"; "fg"; "fg"; "fg"; "bg2"; "fg";
   "blue"; "bg3"; "bg2"; "fg";
   "bg0"; "bg0"].

(** [setup_everforest_theme]: the colour settings it installs. *)
Fixpoint resolve_colors (entries : list (string * string))
  : result (list (string * string)) :=
  match entries with
  | [] => Ok []
  | (param, key) :: r =>
      v <- color key ;;
      vs <- resolve_colors r ;;
      Ok ((param, v) :: vs)
  end.

Definition setup_everforest_theme : result (list (string * string)) :=
  resolve_colors theme_colors.

Definition is_hex_digit (c : ascii) : bool :=
  let n := nat_of_ascii c in
  (((48 <=? n) && (n <=? 57)) || ((97 <=? n) && (n <=? 102)))%nat.

(** A colour written [#rrggbb]. *)
Definition is_hex_color (s : string) : bool :=
  match s with
  | String "#"%char r =>
      (String.length r =? 6)%nat && forallb is_hex_digit (list_ascii_of_string r)
  | _ => false
  end.

(** ** Saving or displaying the chart *)

Module Sink.

(** What [subprocess.run([cmd, path], check=True)] does: it returns, or
    raises [FileNotFoundError] (no such program), [CalledProcessError]
    (the program failed), or some other exception. *)
Inductive viewer_outcome :=
| Opened
| NotInstalled
| Failed
| Crashed (e : exn).

(** The calls of the output step, in order. *)
Inductive event :=
| SaveFig (path : string) (dpi : Z)
| Echo (msg : string)
| RunViewer (cmd path : string)
| SetGeometry (g : string)
| SetWindowTitle (t : string)
| Show.

(** The surroundings of one run: whether saving to a path raises, what
    running a viewer does, the name of the temporary file, whether the
    figure manager has a [window] and that window a [wm_geometry], and
    whether [plt.show] raises. *)
Record env := mkEnv {
  savefig : string -> Z -> option exn;
  run_viewer : string -> string -> viewer_outcome;
  tmp_name : string;
  window : option bool;
  show : option exn
}.

Definition viewers : list string :=
  ["feh"; "eog"; "gwenview"; "ristretto"; "xdg-open"].

(** The loop over the viewers: the calls made, and whether one opened
    ([for ... else] runs when none did); an exception other than the two
    caught ones ends it. *)
Fixpoint try_viewers (E : env) (path : string) (cmds : list string)
  : list event * result bool :=
  match cmds with
  | [] => ([], Ok false)
  | cmd :: r =>
      match run_viewer E cmd path with
      | Opened => ([RunViewer cmd path], Ok true)
      | NotInstalled | Failed =>
          let (t, res) := try_viewers E path r in
          (RunViewer cmd path :: t, res)
      | Crashed e => ([RunViewer cmd path], Raise e)
      end
  end.

(** The interactive branch: the window is placed and titled when the
    manager has a [window]; a window without [wm_geometry] raises
    [AttributeError] at the first of the two calls, which is passed
    over; then [plt.show(block=True)]. *)
Definition display (E : env) : list event * option exn :=
  ((match window E with
    | Some true => [SetGeometry "+100+100"; SetWindowTitle "CSV Chart Viewer"]
    | _ => []
    end ++ [Show])%list,
   show E).

(** The viewer branch: the figure is saved to the temporary file and
    the viewers are tried in order. *)
Definition view (E : env) (dpi : Z) : list event * option exn :=
  let tmp := tmp_name E in
  match savefig E tmp dpi with
  | Some e => ([SaveFig tmp dpi], Some e)
  | None =>
      let (t, res) := try_viewers E tmp viewers in
      let calls := SaveFig tmp dpi :: Echo "Opening chart in image viewer..." :: t in
      match res with
      | Ok true => (calls, None)
      | Ok false =>
          ((calls ++ [Echo ("Could not find image viewer. Chart saved to " ++ tmp)])%list,
           None)
      | Raise e => (calls, Some e)
      end
  end.

(** The output branch: the figure is saved to the given path. *)
Definition save (E : env) (o : string) (dpi : Z) : list event * option exn :=
  match savefig E o dpi with
  | Some e => ([SaveFig o dpi], Some e)
  | None => ([SaveFig o dpi; Echo ("Chart saved to " ++ o)], None)
  end.

(** "Save or display the chart": the calls made and the exception that
    ended them, if any. *)
Definition save_or_display (E : env) (output : option string) (viewer : bool)
    (dpi : Z) : list event * option exn :=
  let otherwise := if viewer then view E dpi else display E in
  match output with
  | Some o => if truthy o then save E o dpi else otherwise
  | None => otherwise
  end.

(** The handlers of [main] after the calls [t]: an interrupt is
    announced and becomes [click.Abort]; any other exception becomes a
    [ClickException] with its message. *)
Definition handle (t : list event) (e : exn) : list event * result unit :=
  match exn_cls e with
  | KeyboardInterrupt =>
      ((t ++ [Echo (nl ++ "Operation cancelled by user")])%list,
       Raise (mkExn ClickAbort ""))
  | _ => (t, Raise (mkExn ClickException (exn_msg e)))
  end.

End Sink.

(** [main] with its output step: the calls of the output step and the
    outcome of the command. *)
Definition main_with_output
    (read_csv : string -> result DataFrame)
    (csv_reader : string -> result (list (list string)))
    (py_float : string -> option float)
    (to_num : string -> option scalar)
    (hexbin_array : list float -> list float -> Z -> list float)
    (E : Sink.env) (file : stream) (title output : option string)
    (requested : chart_type) (gridsize dpi : Z) (viewer : bool)
  : list Sink.event * result unit :=
  match main_body read_csv csv_reader py_float to_num hexbin_array
                  file title requested gridsize with
  | Raise e => Sink.handle [] e
  | Ok fig =>
      match Sink.save_or_display E output viewer dpi with
      | (t, None) => (t, Ok tt)
      | (t, Some e) => Sink.handle t e
      end
  end.

(** Two tables with the same column names, in order, and the same
    number of rows. *)
Definition same_shape (df' df : DataFrame) : Prop :=
  columns df' = columns df /\ df_len df' = df_len df.

(** The text of the hexbin statistics for the bin magnitudes [hb]: none
    when the largest magnitude cannot be taken or is no integer. *)
Definition hexbin_stats (xs ys hb : list float) (total_points : nat)
  : option string :=
  match Stats.max hb with
  | Raise _ => None
  | Ok max_density =>
      match F.to_int max_density with
      | Raise _ => None
      | Ok density =>
          Some ("Correlation: " ++ F.format_f 3 (Stats.corr xs ys) ++ nl
                ++ "Total Points: " ++ str_of_nat total_points ++ nl
                ++ "Max Density: " ++ str_of_Z density)
      end
  end.

(** The table with every column put through the numeric check: what
    the conversion loop of the manual parse leaves when each name is
    the name of one column. *)
Definition convert_all (to_num : string -> option scalar) (df : DataFrame)
  : DataFrame :=
  mkDF (map (fun p => (fst p, checked to_num (snd p))) (df_cols df)) (df_len df).

(** The number of columns of a table that bear a name. *)
Definition name_count (h : string) (cols : list (string * column)) : nat :=
  List.length (filter (fun p => String.eqb (fst p) h) cols).

(** The table of text columns built from rows that all have the width
    of the header. *)
Definition object_frame (headers : list string) (data_rows : list (list string))
  : DataFrame :=
  mkDF (map (fun ih => (snd ih, ColObj (map (fun r => nth_error r (fst ih)) data_rows)))
            (combine (seq 0 (List.length headers)) headers))
       (List.length data_rows).

(** The error of [pd.to_numeric] on a DataFrame. *)
Definition frame_error : exn :=
  mkExn TypeError "arg must be a list, tuple, 1-d array, or Series".

(** The outcomes of a viewer the loop passes over: the two exceptions
    its [except] clause names. *)
Definition passed_over (o : Sink.viewer_outcome) : bool :=
  match o with
  | Sink.NotInstalled | Sink.Failed => true
  | _ => false
  end.

(** The calls of the viewers [cmds] on [path], in order. *)
Definition viewer_calls (cmds : list string) (path : string) : list Sink.event :=
  map (fun cmd => Sink.RunViewer cmd path) cmds.

(** The exceptions [main] lets out: [ClickException] and
    [click.Abort]. *)
Definition is_click_error (r : result unit) : bool :=
  match r with
  | Ok _ => true
  | Raise (mkExn ClickException _) => true
  | Raise (mkExn ClickAbort _) => true
  | Raise _ => false
  end.

Module SinkExamples.

(** A desktop on which only [eog] is installed. *)
Definition only_eog : Sink.env :=
  Sink.mkEnv (fun _ _ => None)
             (fun cmd _ => if String.eqb cmd "eog" then Sink.Opened
                           else Sink.NotInstalled)
             "/tmp/tmpchart.png" (Some false) None.

(** A machine without any of the viewers. *)
Definition no_viewer : Sink.env :=
  Sink.mkEnv (fun _ _ => None) (fun _ _ => Sink.NotInstalled)
             "/tmp/tmpchart.png" None None.

(** A machine on which [feh] is missing and the user interrupts the
    next viewer. *)
Definition interrupted : Sink.env :=
  Sink.mkEnv (fun _ _ => None)
             (fun cmd _ => if String.eqb cmd "feh" then Sink.NotInstalled
                           else Sink.Crashed (mkExn KeyboardInterrupt ""))
             "/tmp/tmpchart.png" None None.

End SinkExamples.

(** * Properties *)

(** ** The chart-type decision *)

Lemma determine_explicit (c : chart_type) (n : nat) :
  c <> auto -> determine_chart_type c n = Ok c.
Proof. destruct c; [congruence | reflexivity ..]. Qed.

(** The two errors of the decision never coincide: their messages
    differ within the first five characters. *)
Lemma AutoDetection_not_ColumnMismatch (c : chart_type) (n m : nat) :
  AutoDetectionError n <> ColumnMismatchError c m.
Proof. destruct c; discriminate. Qed.

(** C1. The resolution table of the chart selector: with [n] columns,
    [auto] gives a histogram for [n = 2], a scatter plot for [n = 3] and
    the auto-detection error otherwise; [histogram] is accepted for
    [n = 2] only, [scatter] and [hexbin] for [n = 3] only, and every
    refusal of an explicit request is the column-mismatch error. *)
Theorem select_chart_resolution (n : nat) :
  (n = 2 -> select_chart auto n = Ok histogram) /\
  (n = 3 -> select_chart auto n = Ok scatter) /\
  (n <> 2 -> n <> 3 -> select_chart auto n = Raise (AutoDetectionError n)) /\
  (n = 2 -> select_chart histogram n = Ok histogram) /\
  (n <> 2 -> select_chart histogram n = Raise (ColumnMismatchError histogram n)) /\
  (n = 3 -> select_chart scatter n = Ok scatter) /\
  (n <> 3 -> select_chart scatter n = Raise (ColumnMismatchError scatter n)) /\
  (n = 3 -> select_chart hexbin n = Ok hexbin) /\
  (n <> 3 -> select_chart hexbin n = Raise (ColumnMismatchError hexbin n)).
Proof.
  unfold select_chart, determine_chart_type, validate_chart_type, bind.
  repeat split; intros; subst; try reflexivity.
  - destruct (Nat.eqb_spec n 2); [contradiction |].
    destruct (Nat.eqb_spec n 3); [contradiction | reflexivity].
  - destruct (Nat.eqb_spec n 2); [contradiction | reflexivity].
  - destruct (Nat.eqb_spec n 3); [contradiction | reflexivity].
  - destruct (Nat.eqb_spec n 3); [contradiction | reflexivity].
Qed.

Lemma select_chart_resolution_witness :
  select_chart auto 2 = Ok histogram /\
  select_chart auto 3 = Ok scatter /\
  select_chart auto 5 = Raise (AutoDetectionError 5) /\
  select_chart histogram 3 = Raise (ColumnMismatchError histogram 3) /\
  select_chart scatter 2 = Raise (ColumnMismatchError scatter 2) /\
  select_chart hexbin 3 = Ok hexbin /\
  select_chart hexbin 4 = Raise (ColumnMismatchError hexbin 4).
Proof.
  split; [apply (select_chart_resolution 2); reflexivity |].
  split; [apply (select_chart_resolution 3); reflexivity |].
  split; [apply (select_chart_resolution 5); lia |].
  split; [apply (select_chart_resolution 3); lia |].
  split; [apply (select_chart_resolution 2); lia |].
  split; [apply (select_chart_resolution 3); reflexivity |].
  apply (select_chart_resolution 4); lia.
Defined.

(** The decision never leaves [auto] unresolved. *)
Lemma select_chart_not_auto (c : chart_type) (n : nat) :
  select_chart c n <> Ok auto.
Proof.
  unfold select_chart, determine_chart_type, validate_chart_type, bind.
  destruct c; repeat (destruct (_ =? _)%nat; simpl); discriminate.
Qed.

(** ** Piped input *)

Lemma lstrip_all_space (s : string) :
  all_space s = true -> lstrip s = EmptyString.
Proof.
  induction s as [| c r IH]; simpl; [reflexivity |].
  destruct (py_isspace c); simpl; [exact IH | discriminate].
Qed.

Lemma lstrip_not_all_space (s : string) :
  all_space s = false ->
  exists c r, lstrip s = String c r /\ py_isspace c = false.
Proof.
  induction s as [| c r IH]; simpl; [discriminate |].
  destruct (py_isspace c) eqn:Hc; simpl; intros H.
  - apply IH, H.
  - exists c, r. split; [reflexivity | exact Hc].
Qed.

Lemma rstrip_keeps_head (c : ascii) (r : string) :
  py_isspace c = false -> rstrip (String c r) <> EmptyString.
Proof.
  intros Hc. simpl. destruct (rstrip r); [rewrite Hc |]; discriminate.
Qed.

(** Stripping leaves nothing exactly when every character is white
    space. *)
Lemma strip_empty_iff (s : string) :
  truthy (strip s) = negb (all_space s).
Proof.
  unfold strip. destruct (all_space s) eqn:Hs.
  - rewrite (lstrip_all_space s Hs). reflexivity.
  - destruct (lstrip_not_all_space s Hs) as (c & r & -> & Hc).
    pose proof (rstrip_keeps_head c r Hc) as Hne.
    destruct (rstrip (String c r)); [contradiction | reflexivity].
Qed.

Lemma read_csv_data_stdin (f : stream) :
  st_name f = "<stdin>" ->
  read_csv_data f =
    if all_space (remaining f)
    then Raise (mkExn ValueError "No data provided via stdin")
    else Ok (StringIO (remaining f)).
Proof.
  intros Hn. unfold read_csv_data. rewrite Hn. simpl.
  rewrite strip_empty_iff, negb_involutive. reflexivity.
Qed.

(** C8. On piped input ([<stdin>]) whose content is empty or white
    space only, loading fails with the empty-input error whatever the
    parsers would do, so before any parsing; on piped input with a
    character that is not white space the loader passes the content on
    and that error is not raised. *)
Theorem stdin_empty_input (f : stream) :
  st_name f = "<stdin>" ->
  (all_space (remaining f) = true ->
     read_csv_data f = Raise (mkExn ValueError "No data provided via stdin") /\
     forall read_csv csv_reader py_float to_num hexbin_array title requested gridsize,
       main_body read_csv csv_reader py_float to_num hexbin_array
                 f title requested gridsize
       = Raise (mkExn ValueError "No data provided via stdin")) /\
  (all_space (remaining f) = false ->
     read_csv_data f = Ok (StringIO (remaining f))).
Proof.
  intros Hn. pose proof (read_csv_data_stdin f Hn) as H.
  split; intros Hs; rewrite Hs in H.
  - split; [exact H |]. intros. unfold main_body. rewrite H. reflexivity.
  - exact H.
Qed.

Lemma stdin_empty_input_witness :
  read_csv_data (mkStream "<stdin>" "   " 0)
    = Raise (mkExn ValueError "No data provided via stdin") /\
  read_csv_data (mkStream "<stdin>" " a,b " 0) = Ok (StringIO " a,b ").
Proof.
  split.
  - apply (stdin_empty_input (mkStream "<stdin>" "   " 0)); reflexivity.
  - apply (stdin_empty_input (mkStream "<stdin>" " a,b " 0)); reflexivity.
Defined.

(** ** The manual parse *)

Lemma map_snd_combine {A B} (l1 : list A) (l2 : list B) :
  List.length l1 = List.length l2 -> map snd (combine l1 l2) = l2.
Proof.
  revert l2. induction l1 as [| a l1 IH]; intros [| b l2] H; simpl in *;
    try discriminate; [reflexivity |].
  f_equal. apply IH. lia.
Qed.

Lemma setitem_columns (df : DataFrame) (name : string) (c : column) :
  columns (setitem df name c) = columns df.
Proof.
  unfold columns, setitem. simpl. rewrite map_map.
  apply map_ext. intros [h v]. simpl. destruct (String.eqb h name); reflexivity.
Qed.

Lemma setitem_len (df : DataFrame) (name : string) (c : column) :
  df_len (setitem df name c) = df_len df.
Proof. reflexivity. Qed.

(** The table built from rows has the headers as its column names and
    one table row per data row. *)
Lemma frame_of_rows_shape (data_rows : list (list string)) (headers : list string)
    (df : DataFrame) :
  frame_of_rows data_rows headers = Ok df ->
  columns df = headers /\ df_len df = List.length data_rows.
Proof.
  unfold frame_of_rows. destruct data_rows as [| r rs].
  - intros [= <-]. unfold columns. simpl. rewrite map_map. simpl.
    rewrite map_id. split; reflexivity.
  - set (rows := r :: rs).
    set (width := fold_right Nat.max 0 (map (@List.length string) rows)).
    destruct (Nat.eqb_spec width (List.length headers)) as [Hw |]; [| discriminate].
    intros [= <-]. unfold columns. simpl. rewrite map_map. simpl.
    split; [| reflexivity].
    apply (map_snd_combine (seq 0 width) headers).
    rewrite length_seq. exact Hw.
Qed.

Section ManualParse.

Variable csv_reader : string -> result (list (list string)).
Variable py_float : string -> option float.
Variable to_num : string -> option scalar.

(** Converting the columns changes neither the names nor the number of
    rows. *)
Lemma convert_columns_shape (cols : list string) (df df' : DataFrame) :
  convert_columns to_num cols df = Ok df' ->
  columns df' = columns df /\ df_len df' = df_len df.
Proof.
  revert df. induction cols as [| col r IH]; intros df; simpl.
  - intros [= <-]. split; reflexivity.
  - destruct (to_numeric to_num (getitem df col)) as [c | e].
    + intros H. apply IH in H. rewrite setitem_columns, setitem_len in H. exact H.
    + destruct (is_ValueError e); [apply IH | discriminate].
Qed.

Lemma manual_parse_shape (src : stream) (rows : list (list string))
    (headers : list string) (data_rows : list (list string)) (df : DataFrame) :
  csv_reader (remaining (seek0 src)) = Ok rows ->
  split_header py_float rows = Ok (headers, data_rows) ->
  manual_parse csv_reader py_float to_num src = Ok df ->
  columns df = headers /\ df_len df = List.length data_rows.
Proof.
  intros Hr Hs. unfold manual_parse. rewrite Hr. simpl. rewrite Hs. simpl.
  destruct (frame_of_rows data_rows headers) as [df0 |] eqn:Hf; simpl;
    [| discriminate].
  intros Hc. apply convert_columns_shape in Hc.
  apply frame_of_rows_shape in Hf. destruct Hc as [-> ->]. exact Hf.
Qed.

End ManualParse.

Lemma synthesized_headers_length (n : nat) :
  List.length (synthesized_headers n) = n.
Proof. unfold synthesized_headers. rewrite length_map, length_seq. reflexivity. Qed.

Lemma synthesized_headers_nth (n i : nat) :
  i < n ->
  nth_error (synthesized_headers n) i = Some ("Column_" ++ str_of_nat (i + 1)).
Proof.
  intros Hi. unfold synthesized_headers.
  rewrite nth_error_map, nth_error_seq.
  destruct (Nat.ltb_spec i n); [reflexivity | lia].
Qed.

(** The header rule of the manual parse, for every row list whose first
    row has a first field: when that field parses as a float there is
    no header row, every row is a data row and the column names are
    [Column_1 .. Column_N] with [N] the length of the first row;
    otherwise the fields of the first row are the column names and the
    remaining rows are the data rows. A table the manual parse returns
    has exactly these names and one row per data row. *)
Theorem manual_parse_header
    (csv_reader : string -> result (list (list string)))
    (py_float : string -> option float) (to_num : string -> option scalar)
    (first : string) (fields : list string) (rest : list (list string)) :
  let row0 := first :: fields in
  let rows := row0 :: rest in
  let N := List.length row0 in
  (forall x, py_float first = Some x ->
     split_header py_float rows = Ok (synthesized_headers N, rows) /\
     List.length (synthesized_headers N) = N /\
     (forall i, i < N ->
        nth_error (synthesized_headers N) i = Some ("Column_" ++ str_of_nat (i + 1))) /\
     (forall src df,
        csv_reader (remaining (seek0 src)) = Ok rows ->
        manual_parse csv_reader py_float to_num src = Ok df ->
        columns df = synthesized_headers N /\ df_len df = List.length rows)) /\
  (py_float first = None ->
     split_header py_float rows = Ok (row0, rest) /\
     (forall src df,
        csv_reader (remaining (seek0 src)) = Ok rows ->
        manual_parse csv_reader py_float to_num src = Ok df ->
        columns df = row0 /\ df_len df = List.length rest)).
Proof.
  intros row0 rows N. split.
  - intros x Hx.
    assert (Hs : split_header py_float rows = Ok (synthesized_headers N, rows)).
    { unfold split_header, rows, row0. rewrite Hx. reflexivity. }
    split; [exact Hs |].
    split; [apply synthesized_headers_length |].
    split; [intros i Hi; apply synthesized_headers_nth, Hi |].
    intros src df Hr Hm.
    exact (manual_parse_shape csv_reader py_float to_num src rows _ _ df Hr Hs Hm).
  - intros Hx.
    assert (Hs : split_header py_float rows = Ok (row0, rest)).
    { unfold split_header, rows, row0. rewrite Hx. reflexivity. }
    split; [exact Hs |].
    intros src df Hr Hm.
    exact (manual_parse_shape csv_reader py_float to_num src rows _ _ df Hr Hs Hm).
Qed.

Lemma manual_parse_header_witness :
  split_header Simple.py_float [["1"; "10"]; ["2"; "20"]; ["3"; "30"]]
    = Ok (["Column_1"; "Column_2"], [["1"; "10"]; ["2"; "20"]; ["3"; "30"]]) /\
  split_header Simple.py_float [["id"; "value"]; ["1"; "10"]; ["2"; "20"]]
    = Ok (["id"; "value"], [["1"; "10"]; ["2"; "20"]]).
Proof.
  split.
  - apply (manual_parse_header Simple.csv_reader Simple.py_float Simple.to_num
             "1" ["10"] [["2"; "20"]; ["3"; "30"]] ) with (x := 1%float).
    reflexivity.
  - apply (manual_parse_header Simple.csv_reader Simple.py_float Simple.to_num
             "id" ["value"] [["1"; "10"]; ["2"; "20"]]).
    reflexivity.
Defined.

(** C4 on the code. A row list whose first row is empty, which is what
    [csv.reader] yields for a blank first line, is not empty, and the
    claim makes its first row the header and the rest the data. The
    code reads [rows[0][0]] before anything else and raises
    [IndexError], which its [except ValueError] does not catch. The
    text below reaches the manual parse: its fourth line is longer than
    the rows before it, so the trusting parse, which skips the blank
    line, raises a tokenizing error; [main] reports the index error as
    its own. *)
Theorem manual_parse_header_blank_first_row :
  split_header Simple.py_float [[]; ["1"; "2"]; ["3"; "4"]; ["5"; "6"; "7"]]
    = Raise (mkExn IndexError "list index out of range") /\
  Simple.read_csv (nl ++ "1,2" ++ nl ++ "3,4" ++ nl ++ "5,6,7" ++ nl)
    = Raise (mkExn ParserError
               ("Error tokenizing data. C error: "
                  ++ "Expected 2 fields in line 4, saw 3" ++ nl)) /\
  Simple.csv_reader (nl ++ "1,2" ++ nl ++ "3,4" ++ nl ++ "5,6,7" ++ nl)
    = Ok [[]; ["1"; "2"]; ["3"; "4"]; ["5"; "6"; "7"]] /\
  parse_csv Simple.read_csv Simple.csv_reader Simple.py_float Simple.to_num
      (mkStream "data.csv" (nl ++ "1,2" ++ nl ++ "3,4" ++ nl ++ "5,6,7" ++ nl) 0)
    = Raise (mkExn IndexError "list index out of range") /\
  Simple.run Simple.no_bins (nl ++ "1,2" ++ nl ++ "3,4" ++ nl ++ "5,6,7" ++ nl) None auto 20
    = Raise (mkExn ClickException "list index out of range").
Proof. repeat split. Qed.

(** ** The fallback of [parse_csv] *)

(** C3, as the code has it. [parse_csv] returns the table of the
    trusting parse when it succeeds; when it raises any [Exception],
    structural or not, the result is that of the manual parse; only an
    exception that is not an [Exception] passes through. *)
Theorem parse_csv_fallback
    (read_csv : string -> result DataFrame)
    (csv_reader : string -> result (list (list string)))
    (py_float : string -> option float) (to_num : string -> option scalar)
    (src : stream) :
  (forall df, read_csv (remaining src) = Ok df ->
     parse_csv read_csv csv_reader py_float to_num src = Ok df) /\
  (forall e, read_csv (remaining src) = Raise e -> is_Exception e = true ->
     parse_csv read_csv csv_reader py_float to_num src
     = manual_parse csv_reader py_float to_num src) /\
  (forall e, read_csv (remaining src) = Raise e -> is_Exception e = false ->
     parse_csv read_csv csv_reader py_float to_num src = Raise e) /\
  (forall e, is_structural e = true -> is_Exception e = true).
Proof.
  unfold parse_csv. repeat split.
  - intros df ->. reflexivity.
  - intros e -> ->. reflexivity.
  - intros e -> ->. reflexivity.
  - intros [c m]. unfold is_structural, is_Exception. simpl.
    destruct c; (reflexivity || discriminate).
Qed.

Lemma parse_csv_fallback_witness :
  parse_csv Simple.read_csv Simple.csv_reader Simple.py_float Simple.to_num
      (mkStream "data.csv" ("1,2" ++ nl ++ "3,4" ++ nl ++ "5,6,7" ++ nl) 0)
  = manual_parse Simple.csv_reader Simple.py_float Simple.to_num
      (mkStream "data.csv" ("1,2" ++ nl ++ "3,4" ++ nl ++ "5,6,7" ++ nl) 0).
Proof.
  apply (parse_csv_fallback Simple.read_csv Simple.csv_reader Simple.py_float
           Simple.to_num
           (mkStream "data.csv" ("1,2" ++ nl ++ "3,4" ++ nl ++ "5,6,7" ++ nl) 0))
    with (e := mkExn ParserError
                 ("Error tokenizing data. C error: "
                    ++ "Expected 2 fields in line 3, saw 3" ++ nl));
    reflexivity.
Defined.

(** C3 as stated fails on an empty file: the trusting parse raises
    [EmptyDataError], which is no structural error, and [parse_csv] does
    not let it through but runs the manual parse, whose own error for an
    empty row list is the result. *)
Lemma parse_csv_fallback_on_empty_file :
  Simple.read_csv "" = Raise (mkExn EmptyDataError "No columns to parse from file") /\
  is_structural (mkExn EmptyDataError "No columns to parse from file") = false /\
  parse_csv Simple.read_csv Simple.csv_reader Simple.py_float Simple.to_num
      (mkStream "data.csv" "" 0)
    = Raise (mkExn ValueError "CSV file is empty") /\
  manual_parse Simple.csv_reader Simple.py_float Simple.to_num
      (mkStream "data.csv" "" 0)
    = Raise (mkExn ValueError "CSV file is empty").
Proof. repeat split. Qed.

(** ** Numeric coercion *)

Section CoercionFacts.

Variable to_num : string -> option scalar.

(** A conversion that fails raises a [ValueError]. *)
Lemma to_numeric_col_raises (c : column) (e : exn) :
  to_numeric_col to_num c = Raise e -> is_ValueError e = true.
Proof.
  destruct c as [vs | vs | cells]; simpl; try discriminate.
  destruct (convert_cells to_num 0 cells) as [[s i] | vs].
  - intros [= <-]. reflexivity.
  - destruct (forallb scalar_is_int vs); discriminate.
Qed.

(** A conversion that succeeds returns a numeric column. *)
Lemma to_numeric_col_numeric (c c' : column) :
  to_numeric_col to_num c = Ok c' -> col_is_numeric c' = true.
Proof.
  destruct c as [vs | vs | cells]; simpl.
  - intros [= <-]. reflexivity.
  - intros [= <-]. reflexivity.
  - destruct (convert_cells to_num 0 cells) as [[s i] | vs]; [discriminate |].
    destruct (forallb scalar_is_int vs); intros [= <-]; reflexivity.
Qed.

Lemma to_numeric_col_of_numeric (c : column) :
  col_is_numeric c = true -> to_numeric_col to_num c = Ok c.
Proof. destruct c; simpl; (reflexivity || discriminate). Qed.

End CoercionFacts.

(** C9. Numeric coercion is idempotent and insensitive to the
    representation: converting the result of a conversion returns it
    unchanged, a column that is numeric already is returned as it is,
    and the texts "10" and "10.0" convert to columns of the same values
    as the numeric column 10 (the first with dtype [int64], the second
    with [float64]). *)
Theorem to_numeric_idempotent (to_num : string -> option scalar) :
  (forall c c', to_numeric_col to_num c = Ok c' ->
                to_numeric_col to_num c' = Ok c') /\
  (forall c, col_is_numeric c = true -> to_numeric_col to_num c = Ok c) /\
  values_of (to_numeric_col Simple.to_num (ColObj [Some "10"])) = Some [10%float] /\
  values_of (to_numeric_col Simple.to_num (ColObj [Some "10.0"])) = Some [10%float] /\
  values_of (to_numeric_col Simple.to_num (ColInt [10%Z])) = Some [10%float] /\
  values_of (to_numeric_col Simple.to_num (ColFloat [10%float])) = Some [10%float].
Proof.
  split; [| split; [| repeat split]].
  - intros c c' H. apply to_numeric_col_of_numeric.
    exact (to_numeric_col_numeric to_num c c' H).
  - apply to_numeric_col_of_numeric.
Qed.

Lemma to_numeric_idempotent_witness :
  to_numeric_col Simple.to_num (ColInt [10%Z]) = Ok (ColInt [10%Z]) /\
  to_numeric_col Simple.to_num (ColFloat [10%float]) = Ok (ColFloat [10%float]).
Proof.
  split.
  - apply (to_numeric_idempotent Simple.to_num) with (c := ColObj [Some "10"]).
    reflexivity.
  - apply (to_numeric_idempotent Simple.to_num) with (c := ColObj [Some "10.0"]).
    reflexivity.
Defined.

(** ** Renderers *)

(** *** The column-count check *)

Section ColumnCount.

Variable to_num : string -> option scalar.
Variable hexbin_array : list float -> list float -> Z -> list float.

Lemma create_histogram_column_count (title : option string) (df : DataFrame) :
  List.length (columns df) <> 2 ->
  create_histogram to_num title df
  = (Raise (ExpectedColumnsError 2 "histogram" (List.length (columns df))), df).
Proof.
  intros H. unfold create_histogram, mbind, get_df, throw.
  destruct (columns df) as [| a [| b [| c l]]]; simpl in *;
    try reflexivity; contradiction.
Qed.

Lemma create_scatter_plot_column_count (title : option string) (df : DataFrame) :
  List.length (columns df) <> 3 ->
  create_scatter_plot to_num title df
  = (Raise (ExpectedColumnsError 3 "scatter plot" (List.length (columns df))), df).
Proof.
  intros H. unfold create_scatter_plot, mbind, get_df, throw.
  destruct (columns df) as [| a [| b [| c [| d l]]]]; simpl in *;
    try reflexivity; contradiction.
Qed.

Lemma create_hexbin_plot_column_count (title : option string) (gridsize : Z)
    (df : DataFrame) :
  List.length (columns df) <> 3 ->
  create_hexbin_plot to_num hexbin_array title gridsize df
  = (Raise (ExpectedColumnsError 3 "hexbin plot" (List.length (columns df))), df).
Proof.
  intros H. unfold create_hexbin_plot, mbind, get_df, throw.
  destruct (columns df) as [| a [| b [| c [| d l]]]]; simpl in *;
    try reflexivity; contradiction.
Qed.

End ColumnCount.

(** C5, as the code has it. Every renderer performs its own
    column-count check: on a table whose column count is not the one it
    expects (2 for the histogram, 3 for the scatter and hexbin plots) it
    raises its own column-count [ValueError] and leaves the table as it
    was. *)
Theorem renderers_check_column_count
    (to_num : string -> option scalar)
    (hexbin_array : list float -> list float -> Z -> list float)
    (title : option string) (gridsize : Z) (df : DataFrame) :
  let n := List.length (columns df) in
  (n <> 2 ->
     create_histogram to_num title df
     = (Raise (ExpectedColumnsError 2 "histogram" n), df)) /\
  (n <> 3 ->
     create_scatter_plot to_num title df
     = (Raise (ExpectedColumnsError 3 "scatter plot" n), df)) /\
  (n <> 3 ->
     create_hexbin_plot to_num hexbin_array title gridsize df
     = (Raise (ExpectedColumnsError 3 "hexbin plot" n), df)).
Proof.
  intros n. split; [| split].
  - apply create_histogram_column_count.
  - apply create_scatter_plot_column_count.
  - apply create_hexbin_plot_column_count.
Qed.

Lemma renderers_check_column_count_witness :
  create_scatter_plot Simple.to_num None Examples.values_10_20_30
  = (Raise (mkExn ValueError "Expected 3 columns for scatter plot, got 2"),
     Examples.values_10_20_30).
Proof.
  apply (renderers_check_column_count Simple.to_num Simple.no_bins None 20%Z
           Examples.values_10_20_30).
  simpl. lia.
Defined.

(** C5 as stated fails: handed a table of three columns, the histogram
    renderer itself raises a column-count error. *)
Lemma create_histogram_rejects_three_columns :
  fst (create_histogram Simple.to_num None Examples.linear)
  = Raise (mkExn ValueError "Expected 2 columns for histogram, got 3").
Proof. reflexivity. Qed.

(** *** Numeric validation *)

Section Validation.

Variable to_num : string -> option scalar.
Variable hexbin_array : list float -> list float -> Z -> list float.

(** The check of one column that [df[col]] finds as a Series. *)
Lemma ensure_numeric_series (df : DataFrame) (col msg : string) (c : column) :
  getitem df col = SelSeries c ->
  ensure_numeric to_num col msg df =
    if col_is_numeric c then (Ok tt, df)
    else match to_numeric_col to_num c with
         | Ok c' => (Ok tt, setitem df col c')
         | Raise _ => (Raise (mkExn ValueError msg), df)
         end.
Proof.
  intros Hg. unfold ensure_numeric, mbind, get_df, ret, put_df, throw.
  rewrite Hg. simpl. destruct (col_is_numeric c); [reflexivity |].
  destruct (to_numeric_col to_num c) as [c' | e] eqn:Hc; [reflexivity |].
  rewrite (to_numeric_col_raises to_num c e Hc). reflexivity.
Qed.

(** A table of three columns with pairwise different names. *)
Variables id_col x_col y_col : string.
Hypothesis names_unique : NoDup [id_col; x_col; y_col].

Local Abbreviation table3 := (table3 id_col x_col y_col).
Local Abbreviation checked := (checked to_num).
Local Abbreviation coercible := (coercible to_num).

Lemma names_differ :
  String.eqb id_col x_col = false /\ String.eqb id_col y_col = false /\
  String.eqb x_col y_col = false /\ String.eqb y_col x_col = false.
Proof.
  inversion names_unique as [| ? ? Hi Hr]; subst.
  inversion Hr as [| ? ? Hx _]; subst.
  repeat split; apply String.eqb_neq; intros E; subst.
  - apply Hi. left. reflexivity.
  - apply Hi. right. left. reflexivity.
  - apply Hx. left. reflexivity.
  - apply Hx. left. reflexivity.
Qed.

Lemma getitem_x (cid cx cy : column) (n : nat) :
  getitem (table3 cid cx cy n) x_col = SelSeries cx.
Proof.
  destruct names_differ as (Hix & Hiy & Hxy & Hyx).
  unfold getitem, table3. simpl.
  rewrite Hix, String.eqb_refl, Hyx. reflexivity.
Qed.

Lemma getitem_y (cid cx cy : column) (n : nat) :
  getitem (table3 cid cx cy n) y_col = SelSeries cy.
Proof.
  destruct names_differ as (Hix & Hiy & Hxy & Hyx).
  unfold getitem, table3. simpl.
  rewrite Hiy, Hxy, String.eqb_refl. reflexivity.
Qed.

Lemma setitem_x (cid cx cy c : column) (n : nat) :
  setitem (table3 cid cx cy n) x_col c = table3 cid c cy n.
Proof.
  destruct names_differ as (Hix & Hiy & Hxy & Hyx).
  unfold setitem, table3. simpl.
  rewrite Hix, String.eqb_refl, Hyx. reflexivity.
Qed.

Lemma setitem_y (cid cx cy c : column) (n : nat) :
  setitem (table3 cid cx cy n) y_col c = table3 cid cx c n.
Proof.
  destruct names_differ as (Hix & Hiy & Hxy & Hyx).
  unfold setitem, table3. simpl.
  rewrite Hiy, Hxy, String.eqb_refl. reflexivity.
Qed.

Lemma ensure_x (cid cx cy : column) (n : nat) (msg : string) :
  ensure_numeric to_num x_col msg (table3 cid cx cy n) =
    if coercible cx then (Ok tt, table3 cid (checked cx) cy n)
    else (Raise (mkExn ValueError msg), table3 cid cx cy n).
Proof.
  rewrite (ensure_numeric_series _ _ _ cx (getitem_x cid cx cy n)).
  unfold coercible, checked.
  destruct (col_is_numeric cx) eqn:Hn.
  - rewrite (to_numeric_col_of_numeric to_num cx Hn). reflexivity.
  - destruct (to_numeric_col to_num cx); simpl; [rewrite setitem_x |]; reflexivity.
Qed.

Lemma ensure_y (cid cx cy : column) (n : nat) (msg : string) :
  ensure_numeric to_num y_col msg (table3 cid cx cy n) =
    if coercible cy then (Ok tt, table3 cid cx (checked cy) n)
    else (Raise (mkExn ValueError msg), table3 cid cx cy n).
Proof.
  rewrite (ensure_numeric_series _ _ _ cy (getitem_y cid cx cy n)).
  unfold coercible, checked.
  destruct (col_is_numeric cy) eqn:Hn.
  - rewrite (to_numeric_col_of_numeric to_num cy Hn). reflexivity.
  - destruct (to_numeric_col to_num cy); simpl; [rewrite setitem_y |]; reflexivity.
Qed.

(** The scatter renderer when [x] does not pass. *)
Lemma scatter_x_fails (title : option string) (cid cx cy : column) (n : nat) :
  coercible cx = false ->
  create_scatter_plot to_num title (table3 cid cx cy n)
  = (Raise (NonNumericColumnError x_col "scatter plot"), table3 cid cx cy n).
Proof.
  intros Hx. unfold create_scatter_plot.
  unfold mbind at 1. unfold get_df at 1. cbn [columns table3 df_cols map fst].
  unfold mbind at 1. rewrite ensure_x, Hx. reflexivity.
Qed.

(** The scatter renderer when [x] passes and [y] does not. *)
Lemma scatter_y_fails (title : option string) (cid cx cy : column) (n : nat) :
  coercible cx = true -> coercible cy = false ->
  create_scatter_plot to_num title (table3 cid cx cy n)
  = (Raise (NonNumericColumnError y_col "scatter plot"),
     table3 cid (checked cx) cy n).
Proof.
  intros Hx Hy. unfold create_scatter_plot.
  unfold mbind at 1. unfold get_df at 1. cbn [columns table3 df_cols map fst].
  unfold mbind at 1. rewrite ensure_x, Hx.
  unfold mbind at 1. rewrite ensure_y, Hy. reflexivity.
Qed.

Lemma hexbin_x_fails (title : option string) (gridsize : Z)
    (cid cx cy : column) (n : nat) :
  coercible cx = false ->
  create_hexbin_plot to_num hexbin_array title gridsize (table3 cid cx cy n)
  = (Raise (NonNumericColumnError x_col "hexbin plot"), table3 cid cx cy n).
Proof.
  intros Hx. unfold create_hexbin_plot.
  unfold mbind at 1. unfold get_df at 1. cbn [columns table3 df_cols map fst].
  unfold mbind at 1. rewrite ensure_x, Hx. reflexivity.
Qed.

Lemma hexbin_y_fails (title : option string) (gridsize : Z)
    (cid cx cy : column) (n : nat) :
  coercible cx = true -> coercible cy = false ->
  create_hexbin_plot to_num hexbin_array title gridsize (table3 cid cx cy n)
  = (Raise (NonNumericColumnError y_col "hexbin plot"),
     table3 cid (checked cx) cy n).
Proof.
  intros Hx Hy. unfold create_hexbin_plot.
  unfold mbind at 1. unfold get_df at 1. cbn [columns table3 df_cols map fst].
  unfold mbind at 1. rewrite ensure_x, Hx.
  unfold mbind at 1. rewrite ensure_y, Hy. reflexivity.
Qed.

(** A textual column that converts is replaced by a numeric one, which
    is another column. *)
Lemma checked_textual (c : column) :
  col_is_numeric c = false -> coercible c = true ->
  to_numeric_col to_num c = Ok (checked c) /\
  col_is_numeric (checked c) = true /\ checked c <> c.
Proof.
  unfold coercible, checked. intros Hn Hc. rewrite Hn.
  destruct (to_numeric_col to_num c) as [c' |] eqn:Ht; [| discriminate].
  pose proof (to_numeric_col_numeric to_num c c' Ht) as Hn'.
  repeat split; [exact Hn' |]. intros E. congruence.
Qed.

End Validation.

(** C6. On a table of three columns the scatter and hexbin renderers
    check [x], then [y], and raise at the first column that does not
    convert, naming it: when [x] does not convert the error names [x]
    and the table is left as it was, whatever [y] holds, so [y] is not
    tried; when [x] passes and [y] does not convert the error names
    [y]. *)
Theorem validation_names_first_offender
    (to_num : string -> option scalar)
    (hexbin_array : list float -> list float -> Z -> list float)
    (id_col x_col y_col : string) (title : option string) (gridsize : Z)
    (cid cx cy : column) (n : nat) :
  NoDup [id_col; x_col; y_col] ->
  let df := table3 id_col x_col y_col cid cx cy n in
  (coercible to_num cx = false ->
     create_scatter_plot to_num title df
     = (Raise (NonNumericColumnError x_col "scatter plot"), df) /\
     create_hexbin_plot to_num hexbin_array title gridsize df
     = (Raise (NonNumericColumnError x_col "hexbin plot"), df)) /\
  (coercible to_num cx = true -> coercible to_num cy = false ->
     fst (create_scatter_plot to_num title df)
     = Raise (NonNumericColumnError y_col "scatter plot") /\
     fst (create_hexbin_plot to_num hexbin_array title gridsize df)
     = Raise (NonNumericColumnError y_col "hexbin plot")).
Proof.
  intros Hu df. split.
  - intros Hx. split.
    + apply scatter_x_fails; assumption.
    + apply hexbin_x_fails; assumption.
  - intros Hx Hy. split.
    + unfold df. rewrite scatter_y_fails by assumption. reflexivity.
    + unfold df. rewrite hexbin_y_fails by assumption. reflexivity.
Qed.

Lemma names_id_x_y : NoDup ["id"; "x"; "y"].
Proof.
  repeat constructor; simpl; intros H;
    repeat (destruct H as [H | H]; [discriminate |]); exact H.
Defined.

Lemma validation_names_first_offender_witness :
  fst (create_scatter_plot Simple.to_num None Examples.numeric_x_text_y)
  = Raise (mkExn ValueError "Column 'y' must be numeric for scatter plot") /\
  fst (create_hexbin_plot Simple.to_num Simple.no_bins None 20
         Examples.numeric_x_text_y)
  = Raise (mkExn ValueError "Column 'y' must be numeric for hexbin plot").
Proof.
  apply (validation_names_first_offender Simple.to_num Simple.no_bins
           "id" "x" "y" None 20%Z (ColInt [1; 2]%Z) (ColInt [1; 2]%Z)
           (ColObj [Some "a"; Some "b"]) 2 names_id_x_y); reflexivity.
Defined.

(** C10, as the code has it. The check is not atomic on the table: when
    [x] is a textual column that converts and [y] does not convert, the scatter and
    hexbin renderers raise the error for [y] and the caller's table is
    left with [x] replaced by its numeric conversion, so it is no longer
    the table that was passed. *)
Theorem validation_leaves_x_converted
    (to_num : string -> option scalar)
    (hexbin_array : list float -> list float -> Z -> list float)
    (id_col x_col y_col : string) (title : option string) (gridsize : Z)
    (cid cx cy : column) (n : nat) :
  NoDup [id_col; x_col; y_col] ->
  col_is_numeric cx = false ->
  coercible to_num cx = true ->
  coercible to_num cy = false ->
  let df := table3 id_col x_col y_col cid cx cy n in
  exists cx',
    to_numeric_col to_num cx = Ok cx' /\
    col_is_numeric cx' = true /\
    create_scatter_plot to_num title df
    = (Raise (NonNumericColumnError y_col "scatter plot"),
       table3 id_col x_col y_col cid cx' cy n) /\
    create_hexbin_plot to_num hexbin_array title gridsize df
    = (Raise (NonNumericColumnError y_col "hexbin plot"),
       table3 id_col x_col y_col cid cx' cy n) /\
    table3 id_col x_col y_col cid cx' cy n <> df.
Proof.
  intros Hu Hn Hx Hy df.
  destruct (checked_textual to_num cx Hn Hx) as (Hc & Hn' & Hd).
  exists (checked to_num cx).
  split; [exact Hc |]. split; [exact Hn' |].
  split; [apply scatter_y_fails; assumption |].
  split; [apply hexbin_y_fails; assumption |].
  unfold df, table3. intros E. apply Hd. congruence.
Qed.

Lemma validation_leaves_x_converted_witness :
  exists cx',
    to_numeric_col Simple.to_num (ColObj [Some "1"; Some "2"]) = Ok cx' /\
    col_is_numeric cx' = true /\
    create_scatter_plot Simple.to_num None Examples.text_xy
    = (Raise (NonNumericColumnError "y" "scatter plot"),
       table3 "id" "x" "y" (ColInt [1; 2]%Z) cx' (ColObj [Some "a"; Some "b"]) 2) /\
    create_hexbin_plot Simple.to_num Simple.no_bins None 20 Examples.text_xy
    = (Raise (NonNumericColumnError "y" "hexbin plot"),
       table3 "id" "x" "y" (ColInt [1; 2]%Z) cx' (ColObj [Some "a"; Some "b"]) 2) /\
    table3 "id" "x" "y" (ColInt [1; 2]%Z) cx' (ColObj [Some "a"; Some "b"]) 2
    <> Examples.text_xy.
Proof.
  apply (validation_leaves_x_converted Simple.to_num Simple.no_bins
           "id" "x" "y" None 20%Z (ColInt [1; 2]%Z) (ColObj [Some "1"; Some "2"])
           (ColObj [Some "a"; Some "b"]) 2 names_id_x_y); reflexivity.
Defined.

(** C10 as stated fails when [x] is numeric already: it passes the
    check, [y] does not convert, and the table is left exactly as it was
    passed, since the check assigns to textual columns only. *)
Lemma validation_numeric_x_leaves_table :
  coercible Simple.to_num (ColInt [1; 2]%Z) = true /\
  coercible Simple.to_num (ColObj [Some "a"; Some "b"]) = false /\
  create_scatter_plot Simple.to_num None Examples.numeric_x_text_y
  = (Raise (NonNumericColumnError "y" "scatter plot"), Examples.numeric_x_text_y) /\
  create_hexbin_plot Simple.to_num Simple.no_bins None 20
      Examples.numeric_x_text_y
  = (Raise (NonNumericColumnError "y" "hexbin plot"), Examples.numeric_x_text_y).
Proof. repeat split. Qed.

(** In general, when [x] is numeric already the check assigns nothing:
    the table is left as it was passed. *)
Lemma validation_numeric_x_untouched
    (to_num : string -> option scalar)
    (id_col x_col y_col : string) (title : option string)
    (cid cx cy : column) (n : nat) :
  NoDup [id_col; x_col; y_col] ->
  col_is_numeric cx = true ->
  coercible to_num cy = false ->
  snd (create_scatter_plot to_num title (table3 id_col x_col y_col cid cx cy n))
  = table3 id_col x_col y_col cid cx cy n.
Proof.
  intros Hu Hn Hy.
  rewrite scatter_y_fails; try assumption.
  - unfold checked. rewrite Hn. reflexivity.
  - unfold coercible. rewrite (to_numeric_col_of_numeric to_num cx Hn). reflexivity.
Qed.

(** *** The histogram's statistics *)

Lemma getitem_value (id_col value_col : string) (cid c : column) (n : nat) :
  id_col <> value_col ->
  getitem (table2 id_col value_col cid c n) value_col = SelSeries c.
Proof.
  intros Hd. apply String.eqb_neq in Hd.
  unfold getitem, table2. simpl. rewrite Hd, String.eqb_refl. reflexivity.
Qed.

(** The histogram renderer on a numeric value column: the error of the
    drawing call when it raises, the figure otherwise. *)
Lemma create_histogram_numeric
    (to_num : string -> option scalar) (title : option string)
    (id_col value_col : string) (cid c : column) (n : nat) :
  id_col <> value_col ->
  col_is_numeric c = true ->
  let df := table2 id_col value_col cid c n in
  let values := col_values c in
  create_histogram to_num title df
  = match Mpl.hist values 20 with
    | Raise e => (Raise e, df)
    | Ok _ =>
        (Ok (mkFig (Hist values 20) value_col "Frequency"
                   (title_or title ("Distribution of " ++ value_col)) None
                   (Some ("Mean: " ++ F.format_f 2 (Stats.col_mean c) ++ nl
                          ++ "Std: " ++ F.format_f 2 (Stats.std values) ++ nl
                          ++ "Count: " ++ str_of_nat n))),
         df)
    end.
Proof.
  intros Hd Hn df values. unfold create_histogram.
  unfold mbind at 1. unfold get_df at 1. cbn [columns df table2 df_cols map fst].
  unfold mbind at 1.
  rewrite (ensure_numeric_series to_num _ _ _ c (getitem_value _ _ cid c n Hd)).
  rewrite Hn. unfold mbind, get_df, lift, ret, series_values, series_mean.
  rewrite (getitem_value _ _ cid c n Hd). fold values.
  destruct (Mpl.hist values 20); reflexivity.
Qed.

(** Data that are not empty and hold no number are refused by the
    drawing call. *)
Lemma hist_all_nan (x : list float) (bins : nat) :
  x <> [] -> Stats.dropna x = [] ->
  Mpl.hist x bins
  = Raise (mkExn ValueError "autodetected range of [nan, nan] is not finite").
Proof.
  intros Hne He. destruct x as [| a l]; [contradiction |].
  assert (Ha : F.isnan a = true).
  { unfold Stats.dropna in He. simpl in He.
    destruct (F.isnan a); [reflexivity | discriminate]. }
  unfold Mpl.hist, Mpl.bin_range, Mpl.amin, Mpl.amax, Mpl.nanmin, Mpl.nanmax.
  rewrite He. cbn [existsb]. rewrite Ha. reflexivity.
Qed.



(** The cut of the pairwise summation leaves two shorter parts. *)
Lemma pairwise_cut (n : nat) :
  128 < n ->
  let n2 := n / 2 - (n / 2) mod 8 in
  0 < n2 /\ n2 < n.
Proof.
  intros Hn n2.
  assert (H64 : 64 <= n / 2) by (apply Nat.div_le_lower_bound; lia).
  assert (Hm : (n / 2) mod 8 < 8) by (apply Nat.mod_upper_bound; lia).
  assert (Hh : n / 2 < n) by (apply Nat.div_lt; lia).
  unfold n2. lia.
Qed.

(** The fuel of the pairwise summation does not show in the sum once it
    covers the length of the list: the cuts always end before it does. *)
Lemma pairwise_sum_fuel (f1 f2 : nat) (l : list float) :
  List.length l <= f1 -> List.length l <= f2 ->
  F.pairwise_sum f1 l = F.pairwise_sum f2 l.
Proof.
  revert f2 l. induction f1 as [| f1 IH]; intros f2 l H1 H2.
  - destruct l; [| simpl in H1; lia]. destruct f2; reflexivity.
  - destruct f2 as [| f2].
    + destruct l; [reflexivity | simpl in H2; lia].
    + cbn [F.pairwise_sum].
      destruct (Nat.leb_spec (List.length l) 128) as [Hs | Hb]; [reflexivity |].
      destruct (pairwise_cut _ Hb) as [Hp Hq].
      set (n2 := List.length l / 2 - (List.length l / 2) mod 8) in *.
      assert (Ha : List.length (firstn n2 l) = n2)
        by (rewrite length_firstn; lia).
      assert (Hb' : List.length (skipn n2 l) = List.length l - n2)
        by apply length_skipn.
      rewrite (IH f2 (firstn n2 l)) by lia.
      rewrite (IH f2 (skipn n2 l)) by lia.
      reflexivity.
Qed.

(** The two equations of the sum: a block of at most 128 values, and
    the cut of a longer list. *)
Lemma sum_block (l : list float) :
  List.length l <= 128 -> F.sum l = PrimFloat.add F.zero (F.block_sum l).
Proof.
  intros Hs. unfold F.sum. destruct (List.length l) as [| f] eqn:E;
    [reflexivity |].
  cbn [F.pairwise_sum]. rewrite E.
  destruct (Nat.leb_spec (S f) 128); [reflexivity | lia].
Qed.

Lemma sum_cut (l : list float) :
  128 < List.length l ->
  let n2 := List.length l / 2 - (List.length l / 2) mod 8 in
  F.sum l
  = PrimFloat.add F.zero
      (PrimFloat.add (F.pairwise_sum n2 (firstn n2 l))
                     (F.pairwise_sum (List.length l - n2) (skipn n2 l))).
Proof.
  intros Hb n2. destruct (pairwise_cut _ Hb) as [Hp Hq]. fold n2 in Hp, Hq.
  unfold F.sum. destruct (List.length l) as [| f] eqn:E; [lia |].
  cbn [F.pairwise_sum]. rewrite E.
  destruct (Nat.leb_spec (S f) 128); [lia |]. fold n2.
  assert (Ha : List.length (firstn n2 l) = n2)
    by (rewrite length_firstn; lia).
  assert (Hb' : List.length (skipn n2 l) = S f - n2)
    by (rewrite length_skipn; lia).
  rewrite (pairwise_sum_fuel f n2 (firstn n2 l)) by lia.
  rewrite (pairwise_sum_fuel f (S f - n2) (skipn n2 l)) by lia.
  reflexivity.
Qed.

(** With fuel for its length, a list is cut into runs of at most [k]
    values, none empty, that make up the list. *)
Lemma chunks_runs (fuel k : nat) (l : list float) :
  0 < k -> List.length l <= fuel ->
  List.concat (F.chunks fuel k l) = l /\
  Forall (fun run => 0 < List.length run <= k) (F.chunks fuel k l).
Proof.
  intros Hk. revert l. induction fuel as [| f IH]; intros l Hf.
  - destruct l; [split; [reflexivity | constructor] | simpl in Hf; lia].
  - destruct l as [| a r]; [split; [reflexivity | constructor] |].
    cbn [F.chunks].
    assert (Hs : List.length (skipn k (a :: r)) <= f).
    { rewrite length_skipn.
      change (List.length (a :: r)) with (S (List.length r)) in *. lia. }
    destruct (IH _ Hs) as [Hc Hr]. split.
    + cbn [List.concat]. rewrite Hc. apply firstn_skipn.
    + constructor; [| exact Hr].
      rewrite length_firstn.
      change (List.length (a :: r)) with (S (List.length r)). lia.
Qed.





(** *** The correlation in the text box *)

(** Whenever the scatter renderer returns a figure, the figure carries
    a text box: nothing in the guarded statistics raises, so the
    [except] branch that would leave it out is never taken. *)
Lemma scatter_text_always_present
    (to_num : string -> option scalar) (title : option string)
    (df : DataFrame) (fig : Figure) :
  fst (create_scatter_plot to_num title df) = Ok fig ->
  exists t, fig_text fig = Some t.
Proof.
  unfold create_scatter_plot, mbind, get_df, throw, lift, ret, best_effort.
  destruct (columns df) as [| a [| b [| c [| d l]]]]; simpl; try discriminate.
  destruct (ensure_numeric to_num b _ df) as [[[] | e1] df1]; simpl;
    [| discriminate].
  destruct (ensure_numeric to_num c _ df1) as [[[] | e2] df2]; simpl;
    [| discriminate].
  intros [= <-]. eexists. reflexivity.
Qed.

(** C2 on the code. With a constant [y] the correlation is not a
    number and the scatter renderer prints it: the text box reads
    "Correlation: nan". The same holds of a table with one row. *)
Theorem scatter_constant_y_prints_nan (to_num : string -> option scalar) :
  Stats.corr [1; 2; 3]%float [5; 5; 5]%float = F.nan /\
  fst (create_scatter_plot to_num None Examples.constant_y)
  = Ok (mkFig (Scatter [1; 2; 3]%float [5; 5; 5]%float) "x" "y" "y vs x" None
              (Some ("Correlation: nan" ++ nl ++ "Points: 3"))) /\
  fst (create_scatter_plot to_num None Examples.single_row)
  = Ok (mkFig (Scatter [1%float] [2%float]) "x" "y" "y vs x" None
              (Some ("Correlation: nan" ++ nl ++ "Points: 1"))).
Proof. repeat split. Qed.

(** The hexbin renderer prints it as well, whenever the largest bin
    count [d] of the drawing can be taken. *)
Lemma hexbin_constant_y_prints_nan
    (to_num : string -> option scalar)
    (hexbin_array : list float -> list float -> Z -> list float)
    (gridsize : Z) (m : float) (d : Z) :
  Stats.max (hexbin_array [1; 2; 3]%float [5; 5; 5]%float gridsize) = Ok m ->
  F.to_int m = Ok d ->
  fst (create_hexbin_plot to_num hexbin_array None gridsize Examples.constant_y)
  = Ok (mkFig (Hexbin [1; 2; 3]%float [5; 5; 5]%float gridsize) "x" "y"
              "y vs x (Density)" (Some "Point Density")
              (Some ("Correlation: nan" ++ nl ++ "Total Points: 3" ++ nl
                     ++ "Max Density: " ++ str_of_Z d))).
Proof.
  intros Hm Hd.
  unfold create_hexbin_plot, mbind, get_df, lift, ret, best_effort, bind.
  cbn [columns Examples.constant_y df_cols map fst].
  change (ensure_numeric to_num "x" _ Examples.constant_y)
    with (@Ok unit tt, Examples.constant_y).
  cbv iota beta.
  change (ensure_numeric to_num "y" _ Examples.constant_y)
    with (@Ok unit tt, Examples.constant_y).
  cbv iota beta.
  change (series_values Examples.constant_y "x") with [1; 2; 3]%float.
  change (series_values Examples.constant_y "y") with [5; 5; 5]%float.
  rewrite Hm, Hd. reflexivity.
Qed.

(** ** Runs of the whole program *)

(** Four rows of [id,value]: a histogram with count 4 and mean 20. *)
Example run_histogram :
  Simple.run Simple.no_bins ("id,value" ++ nl ++ "1,5" ++ nl ++ "2,15" ++ nl ++ "3,25" ++ nl ++ "4,35")
             None auto 20
  = Ok (mkFig (Hist [5; 15; 25; 35]%float 20) "value" "Frequency"
              "Distribution of value" None
              (Some ("Mean: 20.00" ++ nl ++ "Std: 12.91" ++ nl ++ "Count: 4"))).
Proof. reflexivity. Qed.

(** Three rows of [id,x,y] on a line, as a hexbin plot: correlation 1
    and three points, with the largest bin count of the drawing. *)
Example run_hexbin
    (hexbin_array : list float -> list float -> Z -> list float)
    (m : float) (d : Z) :
  Stats.max (hexbin_array [1; 2; 3]%float [1; 2; 3]%float 5%Z) = Ok m ->
  F.to_int m = Ok d ->
  Simple.run hexbin_array
             ("id,x,y" ++ nl ++ "1,1,1" ++ nl ++ "2,2,2" ++ nl ++ "3,3,3")
             None hexbin 5
  = Ok (mkFig (Hexbin [1; 2; 3]%float [1; 2; 3]%float 5) "x" "y"
              "y vs x (Density)" (Some "Point Density")
              (Some ("Correlation: 1.000" ++ nl ++ "Total Points: 3" ++ nl
                     ++ "Max Density: " ++ str_of_Z d))).
Proof.
  intros Hm Hd. unfold Simple.run, main, main_body.
  change (read_csv_data _) with
    (Ok (StringIO ("id,x,y" ++ nl ++ "1,1,1" ++ nl ++ "2,2,2" ++ nl ++ "3,3,3"))).
  cbv beta iota delta [bind].
  change (parse_csv _ _ _ _ _) with (Ok Examples.diagonal).
  cbv beta iota.
  change (select_chart hexbin _) with (Ok hexbin).
  cbv beta iota.
  unfold create_hexbin_plot, mbind, get_df, lift, ret, best_effort, bind.
  cbn [columns Examples.diagonal df_cols map fst].
  change (ensure_numeric Simple.to_num "x" _ Examples.diagonal)
    with (@Ok unit tt, Examples.diagonal).
  cbv iota beta.
  change (ensure_numeric Simple.to_num "y" _ Examples.diagonal)
    with (@Ok unit tt, Examples.diagonal).
  cbv iota beta.
  change (series_values Examples.diagonal "x") with [1; 2; 3]%float.
  change (series_values Examples.diagonal "y") with [1; 2; 3]%float.
  rewrite Hm, Hd. reflexivity.
Qed.

(** A perfectly linear [y] has correlation 1. *)
Example corr_linear : Stats.corr [1; 2; 3]%float [2; 4; 6]%float = 1%float.
Proof. reflexivity. Qed.

(** An error of the decision leaves [main] as a [ClickException] with
    the same message. *)
Example run_histogram_three_columns :
  Simple.run Simple.no_bins ("id,x,y" ++ nl ++ "1,1,1" ++ nl ++ "2,2,2") None histogram 20
  = Raise (ColumnMismatchError histogram 3).
Proof. reflexivity. Qed.

(** The messages of the two errors of the decision, as [main] prints
    them. *)
Example decision_messages :
  AutoDetectionError 5
  = mkExn ClickException
      "Auto-detection failed: 5 columns. Use --chart-type to specify histogram, scatter, or hexbin" /\
  ColumnMismatchError histogram 3
  = mkExn ClickException "Histogram requires 2 columns, got 3" /\
  ColumnMismatchError scatter 2
  = mkExn ClickException "Scatter requires 3 columns, got 2" /\
  ColumnMismatchError hexbin 4
  = mkExn ClickException "Hexbin requires 3 columns, got 4".
Proof. repeat split. Qed.

(** * Further properties *)

(** ** The decision and the renderer it selects *)

(** Whenever the decision succeeds, the chart type is a concrete one,
    it is the one the column count allows, an explicit request is
    returned as it was asked, and the result is stable under a second
    decision. *)
Theorem select_chart_sound (requested c : chart_type) (n : nat) :
  select_chart requested n = Ok c ->
  c <> auto /\
  n = expected_columns c /\
  (requested <> auto -> c = requested) /\
  select_chart c n = Ok c.
Proof.
  unfold select_chart, determine_chart_type, validate_chart_type, bind.
  destruct requested;
    repeat match goal with
           | |- context [(n =? ?k)%nat] => destruct (Nat.eqb_spec n k); subst; simpl
           end;
    intros [= <-]; repeat split; try discriminate; try reflexivity;
    intros; congruence.
Qed.

Lemma select_chart_sound_witness :
  scatter <> auto /\
  3 = expected_columns scatter /\
  (auto <> auto -> scatter = auto) /\
  select_chart scatter 3 = Ok scatter.
Proof. apply (select_chart_sound auto scatter 3). reflexivity. Defined.

Section RenderFacts.

Variable to_num : string -> option scalar.
Variable hexbin_array : list float -> list float -> Z -> list float.

(** The outcomes of the check of one column: it passes, it raises the
    renderer's own [ValueError], or it lets through an exception that is
    no [ValueError]; the table keeps its names and its length. *)
Lemma ensure_numeric_outcome (col msg : string) (df df' : DataFrame)
    (r : result unit) :
  ensure_numeric to_num col msg df = (r, df') ->
  (r = Ok tt \/ r = Raise (mkExn ValueError msg)
   \/ exists e, r = Raise e /\ is_ValueError e = false) /\
  columns df' = columns df /\ df_len df' = df_len df.
Proof.
  unfold ensure_numeric, mbind, get_df, ret, put_df, throw.
  destruct (is_numeric_dtype (getitem df col)).
  - intros [= <- <-]. split; [left; reflexivity | split; reflexivity].
  - destruct (to_numeric to_num (getitem df col)) as [c | e].
    + intros [= <- <-]. rewrite setitem_columns, setitem_len.
      split; [left; reflexivity | split; reflexivity].
    + destruct (is_ValueError e) eqn:He; intros [= <- <-].
      * split; [right; left; reflexivity | split; reflexivity].
      * split; [right; right; exists e; split; [reflexivity | exact He]
               | split; reflexivity].
Qed.

Lemma best_effort_raises (body : result string) (e : exn) :
  best_effort body = Raise e -> is_Exception e = false.
Proof.
  unfold best_effort. destruct body as [t | e0]; [discriminate |].
  destruct (is_Exception e0) eqn:He; [discriminate |]. intros [= <-]. exact He.
Qed.

Lemma not_ValueError_not_count_error (e : exn) :
  is_ValueError e = false -> is_column_count_error (Raise e) = false.
Proof. destruct e as [[] m]; simpl; (reflexivity || discriminate). Qed.

Lemma not_Exception_not_count_error (e : exn) :
  is_Exception e = false -> is_column_count_error (Raise e) = false.
Proof. destruct e as [[] m]; simpl; (reflexivity || discriminate). Qed.

(** A renderer's guard does recognise the error it raises. *)
Lemma ExpectedColumnsError_is_count_error (k n : nat) (what : string) :
  is_column_count_error (Raise (ExpectedColumnsError k what n)) = true.
Proof. reflexivity. Qed.

(** What a renderer returns on a table with the right number of
    columns is never a column-count error, and the table it leaves has
    the names and the length of the table it got. *)
Lemma hist_error_not_count_error (x : list float) (bins : nat) (e : exn) :
  Mpl.hist x bins = Raise e -> is_column_count_error (Raise e) = false.
Proof.
  unfold Mpl.hist. destruct (Mpl.bin_range x) as [[lo hi] |].
  - destruct (PrimFloat.ltb hi lo); [intros [= <-]; reflexivity |].
    destruct (F.isfinite lo && F.isfinite hi); [discriminate |].
    intros [= <-]. reflexivity.
  - destruct x as [| v r]; [discriminate |].
    destruct (F.isfinite _ && F.isfinite _); [discriminate |].
    intros [= <-]. reflexivity.
Qed.

Lemma create_histogram_two_columns (title : option string) (df : DataFrame) :
  List.length (columns df) = 2 ->
  is_column_count_error (fst (create_histogram to_num title df)) = false.
Proof.
  intros Hn. unfold create_histogram. unfold mbind at 1. unfold get_df at 1.
  destruct (columns df) as [| a [| b [| c l]]]; try discriminate.
  unfold mbind at 1.
  destruct (ensure_numeric to_num b _ df) as [[[] | e] df1] eqn:H1.
  - unfold mbind, get_df, lift, ret.
    destruct (Mpl.hist (series_values df1 b) 20) as [[] | e] eqn:Hh.
    + reflexivity.
    + exact (hist_error_not_count_error _ _ e Hh).
  - apply ensure_numeric_outcome in H1.
    destruct H1 as [[H | [H | (e' & H & He)]] _]; try discriminate.
    + injection H as ->. reflexivity.
    + injection H as ->. apply not_ValueError_not_count_error, He.
Qed.

Lemma create_scatter_plot_three_columns (title : option string) (df : DataFrame) :
  List.length (columns df) = 3 ->
  is_column_count_error (fst (create_scatter_plot to_num title df)) = false.
Proof.
  intros Hn. unfold create_scatter_plot. unfold mbind at 1. unfold get_df at 1.
  destruct (columns df) as [| a [| b [| c [| d l]]]]; try discriminate.
  unfold mbind at 1.
  destruct (ensure_numeric to_num b _ df) as [[[] | e] df1] eqn:H1.
  - unfold mbind at 1.
    destruct (ensure_numeric to_num c _ df1) as [[[] | e] df2] eqn:H2.
    + reflexivity.
    + apply ensure_numeric_outcome in H2.
      destruct H2 as [[H | [H | (e' & H & He)]] _]; try discriminate.
      * injection H as ->. reflexivity.
      * injection H as ->. apply not_ValueError_not_count_error, He.
  - apply ensure_numeric_outcome in H1.
    destruct H1 as [[H | [H | (e' & H & He)]] _]; try discriminate.
    + injection H as ->. reflexivity.
    + injection H as ->. apply not_ValueError_not_count_error, He.
Qed.

Lemma create_hexbin_plot_three_columns (title : option string) (gridsize : Z)
    (df : DataFrame) :
  List.length (columns df) = 3 ->
  is_column_count_error
    (fst (create_hexbin_plot to_num hexbin_array title gridsize df)) = false.
Proof.
  intros Hn. unfold create_hexbin_plot. unfold mbind at 1. unfold get_df at 1.
  destruct (columns df) as [| a [| b [| c [| d l]]]]; try discriminate.
  unfold mbind at 1.
  destruct (ensure_numeric to_num b _ df) as [[[] | e] df1] eqn:H1.
  - unfold mbind at 1.
    destruct (ensure_numeric to_num c _ df1) as [[[] | e] df2] eqn:H2.
    + unfold mbind, get_df, lift, ret.
      match goal with
      | |- context [best_effort ?b] => destruct (best_effort b) as [t | e] eqn:Hb
      end.
      * reflexivity.
      * apply best_effort_raises in Hb.
        apply not_Exception_not_count_error, Hb.
    + apply ensure_numeric_outcome in H2.
      destruct H2 as [[H | [H | (e' & H & He)]] _]; try discriminate.
      * injection H as ->. reflexivity.
      * injection H as ->. apply not_ValueError_not_count_error, He.
  - apply ensure_numeric_outcome in H1.
    destruct H1 as [[H | [H | (e' & H & He)]] _]; try discriminate.
    + injection H as ->. reflexivity.
    + injection H as ->. apply not_ValueError_not_count_error, He.
Qed.

End RenderFacts.

(** Under [main] the column-count guard of a renderer never fires: for
    the chart type the decision returns for a table, the selected
    renderer returns a figure or some other error. *)
Theorem render_after_select_passes_guard
    (to_num : string -> option scalar)
    (hexbin_array : list float -> list float -> Z -> list float)
    (requested c : chart_type) (title : option string) (gridsize : Z)
    (df : DataFrame) :
  select_chart requested (List.length (columns df)) = Ok c ->
  is_column_count_error (fst (render to_num hexbin_array c title gridsize df))
  = false.
Proof.
  intros Hs. apply select_chart_sound in Hs. destruct Hs as (Ha & Hn & _).
  destruct c; simpl in Hn; unfold render.
  - contradiction.
  - apply create_histogram_two_columns, Hn.
  - apply create_scatter_plot_three_columns, Hn.
  - apply create_hexbin_plot_three_columns, Hn.
Qed.

Lemma render_after_select_passes_guard_witness :
  is_column_count_error
    (fst (render Simple.to_num Simple.no_bins scatter None 20 Examples.text_xy))
  = false.
Proof.
  apply (render_after_select_passes_guard Simple.to_num Simple.no_bins
           auto scatter None 20%Z Examples.text_xy).
  reflexivity.
Defined.

(** ** What a renderer does to the table *)

Section RenderFrame.

Variable to_num : string -> option scalar.
Variable hexbin_array : list float -> list float -> Z -> list float.

Lemma same_shape_refl (df : DataFrame) : same_shape df df.
Proof. split; reflexivity. Qed.

Lemma same_shape_trans (a b c : DataFrame) :
  same_shape a b -> same_shape b c -> same_shape a c.
Proof. intros [H1 H2] [H3 H4]. split; congruence. Qed.

Lemma ensure_numeric_shape (col msg : string) (df : DataFrame) :
  same_shape (snd (ensure_numeric to_num col msg df)) df.
Proof.
  destruct (ensure_numeric to_num col msg df) as [r df'] eqn:H.
  apply ensure_numeric_outcome in H. exact (proj2 H).
Qed.

Lemma create_histogram_shape (title : option string) (df : DataFrame) :
  same_shape (snd (create_histogram to_num title df)) df.
Proof.
  unfold create_histogram. unfold mbind at 1. unfold get_df at 1.
  destruct (columns df) as [| a [| b [| c l]]] eqn:Hc;
    try apply same_shape_refl.
  unfold mbind at 1.
  pose proof (ensure_numeric_shape b
                ("Value column '" ++ b ++ "' must be numeric") df) as H1.
  destruct (ensure_numeric to_num b _ df) as [[[] | e] df1]; [| exact H1].
  unfold mbind, get_df, lift, ret.
  destruct (Mpl.hist (series_values df1 b) 20) as [[] | e]; exact H1.
Qed.

Lemma create_scatter_plot_shape (title : option string) (df : DataFrame) :
  same_shape (snd (create_scatter_plot to_num title df)) df.
Proof.
  unfold create_scatter_plot. unfold mbind at 1. unfold get_df at 1.
  destruct (columns df) as [| a [| b [| c [| d l]]]] eqn:Hc;
    try apply same_shape_refl.
  unfold mbind at 1.
  pose proof (ensure_numeric_shape b
                ("Column '" ++ b ++ "' must be numeric for scatter plot") df) as H1.
  destruct (ensure_numeric to_num b _ df) as [[[] | e] df1]; [| exact H1].
  unfold mbind at 1.
  pose proof (ensure_numeric_shape c
                ("Column '" ++ c ++ "' must be numeric for scatter plot") df1) as H2.
  destruct (ensure_numeric to_num c _ df1) as [[[] | e] df2];
    exact (same_shape_trans _ _ _ H2 H1).
Qed.

Lemma create_hexbin_plot_shape (title : option string) (gridsize : Z)
    (df : DataFrame) :
  same_shape (snd (create_hexbin_plot to_num hexbin_array title gridsize df)) df.
Proof.
  unfold create_hexbin_plot. unfold mbind at 1. unfold get_df at 1.
  destruct (columns df) as [| a [| b [| c [| d l]]]] eqn:Hc;
    try apply same_shape_refl.
  unfold mbind at 1.
  pose proof (ensure_numeric_shape b
                ("Column '" ++ b ++ "' must be numeric for hexbin plot") df) as H1.
  destruct (ensure_numeric to_num b _ df) as [[[] | e] df1]; [| exact H1].
  unfold mbind at 1.
  pose proof (ensure_numeric_shape c
                ("Column '" ++ c ++ "' must be numeric for hexbin plot") df1) as H2.
  destruct (ensure_numeric to_num c _ df1) as [[[] | e] df2];
    [| exact (same_shape_trans _ _ _ H2 H1)].
  unfold mbind, get_df, lift, ret.
  match goal with
  | |- context [best_effort ?b] => destruct (best_effort b)
  end; exact (same_shape_trans _ _ _ H2 H1).
Qed.

End RenderFrame.

(** Whatever a renderer returns, figure or error, the table it leaves
    to the caller has the column names, in order, and the row count of
    the table it was given: validation may retype a column, never add,
    drop, rename or resize one. *)
Theorem render_keeps_names_and_length
    (to_num : string -> option scalar)
    (hexbin_array : list float -> list float -> Z -> list float)
    (c : chart_type) (title : option string) (gridsize : Z) (df : DataFrame) :
  columns (snd (render to_num hexbin_array c title gridsize df)) = columns df /\
  df_len (snd (render to_num hexbin_array c title gridsize df)) = df_len df.
Proof.
  destruct c; unfold render.
  - split; reflexivity.
  - apply create_histogram_shape.
  - apply create_scatter_plot_shape.
  - apply create_hexbin_plot_shape.
Qed.

(** ** The renderers on well-formed tables *)

Section RenderTable.

Variable to_num : string -> option scalar.
Variable hexbin_array : list float -> list float -> Z -> list float.
Variables id_col x_col y_col : string.
Hypothesis names_unique : NoDup [id_col; x_col; y_col].

Local Abbreviation T := (table3 id_col x_col y_col).
Local Abbreviation ck := (checked to_num).

(** The guarded statistics of the hexbin renderer never raise: they
    give the text, or nothing. *)
Lemma hexbin_best_effort (xs ys hb : list float) (n : nat) :
  best_effort
    (max_density <- Stats.max hb ;;
     density <- F.to_int max_density ;;
     Ok ("Correlation: " ++ F.format_f 3 (Stats.corr xs ys) ++ nl
         ++ "Total Points: " ++ str_of_nat n ++ nl
         ++ "Max Density: " ++ str_of_Z density))
  = Ok (hexbin_stats xs ys hb n).
Proof.
  unfold hexbin_stats, best_effort, bind.
  destruct hb as [| v r]; [reflexivity |].
  unfold Stats.max.
  set (m := fold_left _ r v). unfold F.to_int.
  destruct (Prim2SF m); reflexivity.
Qed.

Lemma scatter_succeeds (title : option string) (cid cx cy : column) (n : nat) :
  coercible to_num cx = true -> coercible to_num cy = true ->
  create_scatter_plot to_num title (T cid cx cy n)
  = (Ok (mkFig (Scatter (col_values (ck cx)) (col_values (ck cy))) x_col y_col
               (title_or title (y_col ++ " vs " ++ x_col)) None
               (Some ("Correlation: "
                      ++ F.format_f 3 (Stats.corr (col_values (ck cx))
                                                  (col_values (ck cy)))
                      ++ nl ++ "Points: " ++ str_of_nat n))),
     T cid (ck cx) (ck cy) n).
Proof.
  intros Hx Hy. unfold create_scatter_plot.
  unfold mbind at 1. unfold get_df at 1. cbn [columns table3 df_cols map fst].
  unfold mbind at 1. rewrite (ensure_x to_num _ _ _ names_unique), Hx.
  unfold mbind at 1. rewrite (ensure_y to_num _ _ _ names_unique), Hy.
  unfold mbind, get_df, lift, ret, best_effort, series_values.
  rewrite (getitem_x _ _ _ names_unique), (getitem_y _ _ _ names_unique).
  reflexivity.
Qed.

Lemma hexbin_succeeds (title : option string) (gridsize : Z)
    (cid cx cy : column) (n : nat) :
  coercible to_num cx = true -> coercible to_num cy = true ->
  let xs := col_values (ck cx) in
  let ys := col_values (ck cy) in
  create_hexbin_plot to_num hexbin_array title gridsize (T cid cx cy n)
  = (Ok (mkFig (Hexbin xs ys gridsize) x_col y_col
               (title_or title (y_col ++ " vs " ++ x_col ++ " (Density)"))
               (Some "Point Density")
               (hexbin_stats xs ys (hexbin_array xs ys gridsize) n)),
     T cid (ck cx) (ck cy) n).
Proof.
  intros Hx Hy xs ys. unfold create_hexbin_plot.
  unfold mbind at 1. unfold get_df at 1. cbn [columns table3 df_cols map fst].
  unfold mbind at 1. rewrite (ensure_x to_num _ _ _ names_unique), Hx.
  unfold mbind at 1. rewrite (ensure_y to_num _ _ _ names_unique), Hy.
  unfold mbind at 1. unfold get_df at 1.
  unfold series_values.
  rewrite (getitem_x _ _ _ names_unique), (getitem_y _ _ _ names_unique).
  cbn [df_len table3].
  unfold mbind, lift, ret.
  rewrite hexbin_best_effort. reflexivity.
Qed.

End RenderTable.

Lemma checked_numeric (to_num : string -> option scalar) (c : column) :
  coercible to_num c = true -> col_is_numeric (checked to_num c) = true.
Proof.
  unfold coercible, checked. destruct (col_is_numeric c) eqn:Hn; [intros _; exact Hn |].
  destruct (to_numeric_col to_num c) as [c' |] eqn:Ht; [| discriminate].
  intros _. exact (to_numeric_col_numeric to_num c c' Ht).
Qed.

(** On a table of three columns with different names whose [x] and [y]
    both pass the check, the scatter renderer returns a figure over the
    converted values, labelled with the column names, whose text box
    reads "Correlation: " with a number printed to three decimals and
    then the row count; the scatter and the hexbin renderer both leave
    the table with [x] and [y] converted, and both columns are then
    numeric. *)
Theorem plots_of_valid_table
    (to_num : string -> option scalar)
    (hexbin_array : list float -> list float -> Z -> list float)
    (id_col x_col y_col : string) (title : option string) (gridsize : Z)
    (cid cx cy : column) (n : nat) :
  NoDup [id_col; x_col; y_col] ->
  coercible to_num cx = true ->
  coercible to_num cy = true ->
  let xs := col_values (checked to_num cx) in
  let ys := col_values (checked to_num cy) in
  let left := table3 id_col x_col y_col cid (checked to_num cx) (checked to_num cy) n in
  (exists r,
     create_scatter_plot to_num title (table3 id_col x_col y_col cid cx cy n)
     = (Ok (mkFig (Scatter xs ys) x_col y_col
                  (title_or title (y_col ++ " vs " ++ x_col)) None
                  (Some ("Correlation: " ++ F.format_f 3 r ++ nl
                         ++ "Points: " ++ str_of_nat n))),
        left)) /\
  snd (create_hexbin_plot to_num hexbin_array title gridsize
                          (table3 id_col x_col y_col cid cx cy n))
  = left /\
  col_is_numeric (checked to_num cx) = true /\
  col_is_numeric (checked to_num cy) = true.
Proof.
  intros Hu Hx Hy xs ys left.
  split; [eexists; apply scatter_succeeds; assumption |].
  split; [rewrite hexbin_succeeds by assumption; reflexivity |].
  split; apply checked_numeric; assumption.
Qed.

Lemma plots_of_valid_table_witness :
  (exists r,
     create_scatter_plot Simple.to_num (Some "Line")
       (table3 "id" "x" "y" (ColObj [Some "a"; Some "b"; Some "c"])
               (ColObj [Some "1"; Some "2"; Some "3"])
               (ColFloat [2; 4; 6]%float) 3)
     = (Ok (mkFig (Scatter [1; 2; 3]%float [2; 4; 6]%float) "x" "y" "Line" None
                  (Some ("Correlation: " ++ F.format_f 3 r ++ nl
                         ++ "Points: 3"))),
        table3 "id" "x" "y" (ColObj [Some "a"; Some "b"; Some "c"])
               (ColInt [1; 2; 3]%Z) (ColFloat [2; 4; 6]%float) 3)) /\
  snd (create_hexbin_plot Simple.to_num Simple.no_bins (Some "Line") 20
         (table3 "id" "x" "y" (ColObj [Some "a"; Some "b"; Some "c"])
                 (ColObj [Some "1"; Some "2"; Some "3"])
                 (ColFloat [2; 4; 6]%float) 3))
  = table3 "id" "x" "y" (ColObj [Some "a"; Some "b"; Some "c"])
           (ColInt [1; 2; 3]%Z) (ColFloat [2; 4; 6]%float) 3.
Proof.
  pose proof (plots_of_valid_table Simple.to_num Simple.no_bins
                "id" "x" "y" (Some "Line") 20%Z
                (ColObj [Some "a"; Some "b"; Some "c"])
                (ColObj [Some "1"; Some "2"; Some "3"])
                (ColFloat [2; 4; 6]%float) 3 names_id_x_y
                eq_refl eq_refl) as [Hs [Hh _]].
  split; [exact Hs | exact Hh].
Defined.

(** *** The histogram *)

Section HistogramTable.

Variable to_num : string -> option scalar.
Variables id_col value_col : string.
Hypothesis names_differ2 : id_col <> value_col.

Lemma setitem_value (cid c c' : column) (n : nat) :
  setitem (table2 id_col value_col cid c n) value_col c'
  = table2 id_col value_col cid c' n.
Proof.
  pose proof names_differ2 as Hd. apply String.eqb_neq in Hd.
  unfold setitem, table2. simpl. rewrite Hd, String.eqb_refl. reflexivity.
Qed.

Lemma ensure_value (cid c : column) (n : nat) (msg : string) :
  ensure_numeric to_num value_col msg (table2 id_col value_col cid c n) =
    if coercible to_num c
    then (Ok tt, table2 id_col value_col cid (checked to_num c) n)
    else (Raise (mkExn ValueError msg), table2 id_col value_col cid c n).
Proof.
  rewrite (ensure_numeric_series to_num _ _ _ c
             (getitem_value _ _ cid c n names_differ2)).
  unfold coercible, checked.
  destruct (col_is_numeric c) eqn:Hn.
  - rewrite (to_numeric_col_of_numeric to_num c Hn). reflexivity.
  - destruct (to_numeric_col to_num c); simpl; [rewrite setitem_value |];
      reflexivity.
Qed.

Lemma histogram_fails (title : option string) (cid c : column) (n : nat) :
  coercible to_num c = false ->
  create_histogram to_num title (table2 id_col value_col cid c n)
  = (Raise (mkExn ValueError ("Value column '" ++ value_col ++ "' must be numeric")),
     table2 id_col value_col cid c n).
Proof.
  intros Hc. unfold create_histogram.
  unfold mbind at 1. unfold get_df at 1. cbn [columns table2 df_cols map fst].
  unfold mbind at 1. rewrite ensure_value, Hc. reflexivity.
Qed.

(** When the value column passes the check it is left converted in the
    table, and the outcome is that of the drawing call: its error, or
    the figure. *)
Lemma histogram_checked (title : option string) (cid c : column) (n : nat) :
  coercible to_num c = true ->
  let values := col_values (checked to_num c) in
  create_histogram to_num title (table2 id_col value_col cid c n)
  = (match Mpl.hist values 20 with
     | Raise e => Raise e
     | Ok _ =>
         Ok (mkFig (Hist values 20) value_col "Frequency"
                   (title_or title ("Distribution of " ++ value_col)) None
                   (Some ("Mean: "
                          ++ F.format_f 2 (Stats.col_mean (checked to_num c)) ++ nl
                          ++ "Std: " ++ F.format_f 2 (Stats.std values) ++ nl
                          ++ "Count: " ++ str_of_nat n)))
     end,
     table2 id_col value_col cid (checked to_num c) n).
Proof.
  intros Hc values. unfold create_histogram.
  unfold mbind at 1. unfold get_df at 1. cbn [columns table2 df_cols map fst].
  unfold mbind at 1. rewrite ensure_value, Hc.
  unfold mbind, get_df, lift, ret, series_values, series_mean.
  rewrite (getitem_value _ _ cid (checked to_num c) n names_differ2).
  fold values. destruct (Mpl.hist values 20); reflexivity.
Qed.

End HistogramTable.

(** The histogram renderer on a table of two columns with different
    names. A value column that does not convert is refused with an
    error naming it and the table is left as it was. One that passes is
    left converted in the table; the drawing call then decides: its
    error leaves the renderer as it is, and otherwise the figure is
    returned, drawn in 20 bins over the converted values, with the mean,
    the standard deviation and the row count in the text box. *)
Theorem histogram_of_table
    (to_num : string -> option scalar) (title : option string)
    (id_col value_col : string) (cid c : column) (n : nat) :
  id_col <> value_col ->
  let df := table2 id_col value_col cid c n in
  let values := col_values (checked to_num c) in
  let left := table2 id_col value_col cid (checked to_num c) n in
  (coercible to_num c = false ->
     create_histogram to_num title df
     = (Raise (mkExn ValueError
                 ("Value column '" ++ value_col ++ "' must be numeric")), df)) /\
  (coercible to_num c = true ->
     forall e, Mpl.hist values 20 = Raise e ->
     create_histogram to_num title df = (Raise e, left)) /\
  (coercible to_num c = true ->
     Mpl.hist values 20 = Ok tt ->
     create_histogram to_num title df
     = (Ok (mkFig (Hist values 20) value_col "Frequency"
                  (title_or title ("Distribution of " ++ value_col)) None
                  (Some ("Mean: "
                         ++ F.format_f 2 (Stats.col_mean (checked to_num c)) ++ nl
                         ++ "Std: " ++ F.format_f 2 (Stats.std values) ++ nl
                         ++ "Count: " ++ str_of_nat n))),
        left)).
Proof.
  intros Hd df values left. split; [| split].
  - intros Hc. apply histogram_fails; assumption.
  - intros Hc e He. unfold df.
    rewrite (histogram_checked to_num _ _ Hd title cid c n Hc).
    fold values. rewrite He. reflexivity.
  - intros Hc Hh. unfold df.
    rewrite (histogram_checked to_num _ _ Hd title cid c n Hc).
    fold values. rewrite Hh. reflexivity.
Qed.

Lemma histogram_of_table_witness :
  create_histogram Simple.to_num None
    (table2 "id" "value" (ColInt [1; 2]%Z) (ColObj [Some "7"; Some "n/a"]) 2)
  = (Raise (mkExn ValueError "Value column 'value' must be numeric"),
     table2 "id" "value" (ColInt [1; 2]%Z) (ColObj [Some "7"; Some "n/a"]) 2) /\
  create_histogram Simple.to_num None
    (table2 "id" "value" (ColInt [1; 2]%Z) (ColObj [None; None]) 2)
  = (Raise (mkExn ValueError "autodetected range of [nan, nan] is not finite"),
     table2 "id" "value" (ColInt [1; 2]%Z)
            (ColFloat [PrimFloat.nan; PrimFloat.nan]) 2) /\
  create_histogram Simple.to_num None
    (table2 "id" "value" (ColInt [1; 2]%Z) (ColObj [Some "7"; Some "8.5"]) 2)
  = (Ok (mkFig (Hist [7; 8.5]%float 20) "value" "Frequency"
               "Distribution of value" None
               (Some ("Mean: 7.75" ++ nl ++ "Std: 1.06" ++ nl ++ "Count: 2"))),
     table2 "id" "value" (ColInt [1; 2]%Z) (ColFloat [7; 8.5]%float) 2).
Proof.
  split; [| split].
  - refine (proj1 (histogram_of_table Simple.to_num None "id" "value"
                     (ColInt [1; 2]%Z) (ColObj [Some "7"; Some "n/a"]) 2 _) _);
      [discriminate | reflexivity].
  - refine (proj1 (proj2 (histogram_of_table Simple.to_num None "id" "value"
                     (ColInt [1; 2]%Z) (ColObj [None; None]) 2 _)) _ _ _);
      [discriminate | reflexivity | reflexivity].
  - refine (proj2 (proj2 (histogram_of_table Simple.to_num None "id" "value"
                     (ColInt [1; 2]%Z) (ColObj [Some "7"; Some "8.5"]) 2 _)) _ _);
      [discriminate | reflexivity | reflexivity].
Defined.

(** The identifier column takes no part in a chart: with the other
    columns fixed, every renderer returns the same figure or the same
    error whatever the first column holds, numbers or text. *)
Theorem identifier_column_ignored
    (to_num : string -> option scalar)
    (hexbin_array : list float -> list float -> Z -> list float)
    (id_col x_col y_col : string) (title : option string) (gridsize : Z)
    (cid cid' cx cy : column) (n : nat) :
  NoDup [id_col; x_col; y_col] ->
  fst (create_scatter_plot to_num title (table3 id_col x_col y_col cid cx cy n))
  = fst (create_scatter_plot to_num title (table3 id_col x_col y_col cid' cx cy n)) /\
  fst (create_hexbin_plot to_num hexbin_array title gridsize
         (table3 id_col x_col y_col cid cx cy n))
  = fst (create_hexbin_plot to_num hexbin_array title gridsize
           (table3 id_col x_col y_col cid' cx cy n)) /\
  fst (create_histogram to_num title (table2 id_col x_col cid cx n))
  = fst (create_histogram to_num title (table2 id_col x_col cid' cx n)).
Proof.
  intros Hu.
  assert (Hix : id_col <> x_col).
  { inversion Hu as [| ? ? Hi _]; subst. intros E. apply Hi. left.
    symmetry. exact E. }
  destruct (coercible to_num cx) eqn:Hx.
  - split; [| split].
    + destruct (coercible to_num cy) eqn:Hy.
      * rewrite !scatter_succeeds by assumption. reflexivity.
      * rewrite !scatter_y_fails by assumption. reflexivity.
    + destruct (coercible to_num cy) eqn:Hy.
      * rewrite !hexbin_succeeds by assumption. reflexivity.
      * rewrite !hexbin_y_fails by assumption. reflexivity.
    + rewrite !histogram_checked by assumption. reflexivity.
  - split; [| split].
    + rewrite !scatter_x_fails by assumption. reflexivity.
    + rewrite !hexbin_x_fails by assumption. reflexivity.
    + rewrite !histogram_fails by assumption. reflexivity.
Qed.

Lemma identifier_column_ignored_witness :
  fst (create_scatter_plot Simple.to_num None
         (table3 "id" "x" "y" (ColObj [Some "a"; Some "b"])
                 (ColInt [1; 2]%Z) (ColInt [3; 5]%Z) 2))
  = fst (create_scatter_plot Simple.to_num None
           (table3 "id" "x" "y" (ColInt [1; 2]%Z)
                   (ColInt [1; 2]%Z) (ColInt [3; 5]%Z) 2)).
Proof.
  apply (identifier_column_ignored Simple.to_num Simple.no_bins "id" "x" "y"
           None 20%Z (ColObj [Some "a"; Some "b"]) (ColInt [1; 2]%Z)
           (ColInt [1; 2]%Z) (ColInt [3; 5]%Z) 2 names_id_x_y).
Defined.

(** ** Titles *)

Section Titles.

Variable to_num : string -> option scalar.
Variable hexbin_array : list float -> list float -> Z -> list float.

Lemma create_histogram_title (t : string) (df : DataFrame) (fig : Figure) :
  truthy t = true ->
  fst (create_histogram to_num (Some t) df) = Ok fig -> fig_title fig = t.
Proof.
  intros Ht. unfold create_histogram, mbind, get_df, throw, lift, ret, title_or.
  rewrite Ht.
  destruct (columns df) as [| a [| b [| c l]]]; simpl; try discriminate.
  destruct (ensure_numeric to_num b _ df) as [[[] | e1] df1]; simpl;
    [| discriminate].
  destruct (Mpl.hist _ 20) as [[] | e2]; simpl; [| discriminate].
  intros [= <-]. reflexivity.
Qed.

Lemma create_scatter_plot_title (t : string) (df : DataFrame) (fig : Figure) :
  truthy t = true ->
  fst (create_scatter_plot to_num (Some t) df) = Ok fig -> fig_title fig = t.
Proof.
  intros Ht.
  unfold create_scatter_plot, mbind, get_df, throw, lift, ret, best_effort, title_or.
  rewrite Ht.
  destruct (columns df) as [| a [| b [| c [| d l]]]]; simpl; try discriminate.
  destruct (ensure_numeric to_num b _ df) as [[[] | e1] df1]; simpl;
    [| discriminate].
  destruct (ensure_numeric to_num c _ df1) as [[[] | e2] df2]; simpl;
    [| discriminate].
  intros [= <-]. reflexivity.
Qed.

Lemma create_hexbin_plot_title (t : string) (gridsize : Z) (df : DataFrame)
    (fig : Figure) :
  truthy t = true ->
  fst (create_hexbin_plot to_num hexbin_array (Some t) gridsize df) = Ok fig ->
  fig_title fig = t.
Proof.
  intros Ht.
  unfold create_hexbin_plot, mbind, get_df, throw, lift, ret, title_or.
  rewrite Ht.
  destruct (columns df) as [| a [| b [| c [| d l]]]]; simpl; try discriminate.
  destruct (ensure_numeric to_num b _ df) as [[[] | e1] df1]; simpl;
    [| discriminate].
  destruct (ensure_numeric to_num c _ df1) as [[[] | e2] df2]; simpl;
    [| discriminate].
  match goal with
  | |- context [best_effort ?b] => destruct (best_effort b); simpl
  end; [| discriminate].
  intros [= <-]. reflexivity.
Qed.

End Titles.

(** A title that is given and not empty is the title of every figure a
    renderer returns; an empty title counts as none, so that the
    renderer behaves exactly as without a title and uses its default. *)
Theorem title_given_or_default
    (to_num : string -> option scalar)
    (hexbin_array : list float -> list float -> Z -> list float)
    (c : chart_type) (gridsize : Z) (df : DataFrame) :
  (forall t fig,
     truthy t = true ->
     fst (render to_num hexbin_array c (Some t) gridsize df) = Ok fig ->
     fig_title fig = t) /\
  render to_num hexbin_array c (Some "") gridsize df
  = render to_num hexbin_array c None gridsize df.
Proof.
  split.
  - intros t fig Ht. destruct c; unfold render.
    + discriminate.
    + apply create_histogram_title, Ht.
    + apply create_scatter_plot_title, Ht.
    + apply create_hexbin_plot_title, Ht.
  - destruct c; reflexivity.
Qed.

Lemma title_given_or_default_witness :
  exists fig,
    fst (render Simple.to_num Simple.no_bins histogram (Some "Sales") 20
           Examples.values_10_20_30) = Ok fig /\
    fig_title fig = "Sales".
Proof.
  eexists. split; [reflexivity |].
  apply (title_given_or_default Simple.to_num Simple.no_bins histogram 20%Z
           Examples.values_10_20_30); reflexivity.
Defined.

(** ** Statistics that cannot be computed *)

(** A value column with at most one value that is a number. When no
    value is a number and the column is not empty, the drawing call
    refuses the data and the renderer raises its error: no histogram is
    made. When the drawing call accepts the data, the histogram is
    returned and its text box prints the standard deviation as "nan";
    for a column with no value at all, the mean as well. *)
Theorem histogram_degenerate_stats
    (to_num : string -> option scalar) (title : option string)
    (id_col value_col : string) (cid c : column) (n : nat) :
  id_col <> value_col ->
  col_is_numeric c = true ->
  List.length (Stats.dropna (col_values c)) <= 1 ->
  (col_values c <> [] -> Stats.dropna (col_values c) = [] ->
   fst (create_histogram to_num title (table2 id_col value_col cid c n))
   = Raise (mkExn ValueError
              "autodetected range of [nan, nan] is not finite")) /\
  (Mpl.hist (col_values c) 20 = Ok tt ->
   exists fig,
     fst (create_histogram to_num title (table2 id_col value_col cid c n))
     = Ok fig /\
     fig_text fig
     = Some ("Mean: " ++ F.format_f 2 (Stats.col_mean c) ++ nl
             ++ "Std: nan" ++ nl ++ "Count: " ++ str_of_nat n)) /\
  (col_values c = [] ->
   exists fig,
     fst (create_histogram to_num title (table2 id_col value_col cid c n))
     = Ok fig /\
     fig_text fig
     = Some ("Mean: nan" ++ nl ++ "Std: nan" ++ nl ++ "Count: " ++ str_of_nat n)).
Proof.
  intros Hd Hn Hlen.
  assert (Hs : Stats.std (col_values c) = F.nan).
  { unfold Stats.std, Stats.var.
    destruct (Nat.leb_spec (List.length (Stats.dropna (col_values c))) 1);
      [reflexivity | lia]. }
  rewrite create_histogram_numeric by assumption.
  split; [| split].
  - intros Hne He. rewrite (hist_all_nan _ 20 Hne He). reflexivity.
  - intros Hh. rewrite Hh. eexists. split; [reflexivity |].
    cbn [fst fig_text]. rewrite Hs. reflexivity.
  - intros He.
    assert (Hm : Stats.col_mean c = F.nan).
    { destruct c as [vs | vs | vs]; [| | discriminate].
      - destruct vs; [reflexivity | discriminate].
      - cbn [col_values] in He. subst vs. reflexivity. }
    rewrite He. eexists. split; [reflexivity |].
    cbn [fst fig_text]. rewrite Hm. reflexivity.
Qed.

Lemma histogram_degenerate_stats_witness :
  fst (create_histogram Simple.to_num None
         (table2 "id" "value" (ColInt [1; 2]%Z)
                 (ColFloat [PrimFloat.nan; PrimFloat.nan]) 2))
  = Raise (mkExn ValueError "autodetected range of [nan, nan] is not finite") /\
  (exists fig,
     fst (create_histogram Simple.to_num None
            (table2 "id" "value" (ColInt [1%Z]) (ColInt [42%Z]) 1)) = Ok fig /\
     fig_text fig
     = Some ("Mean: 42.00" ++ nl ++ "Std: nan" ++ nl ++ "Count: 1")) /\
  (exists fig,
     fst (create_histogram Simple.to_num None
            (table2 "id" "value" (ColInt []) (ColFloat []) 0)) = Ok fig /\
     fig_text fig
     = Some ("Mean: nan" ++ nl ++ "Std: nan" ++ nl ++ "Count: 0")).
Proof.
  split; [| split].
  - refine (proj1 (histogram_degenerate_stats Simple.to_num None "id" "value"
                     (ColInt [1; 2]%Z) (ColFloat [PrimFloat.nan; PrimFloat.nan])
                     2 _ _ _) _ _);
      [discriminate | reflexivity | simpl; lia | discriminate | reflexivity].
  - refine (proj1 (proj2 (histogram_degenerate_stats Simple.to_num None
                     "id" "value" (ColInt [1%Z]) (ColInt [42%Z]) 1 _ _ _)) _);
      [discriminate | reflexivity | simpl; lia | reflexivity].
  - refine (proj2 (proj2 (histogram_degenerate_stats Simple.to_num None
                     "id" "value" (ColInt []) (ColFloat []) 0 _ _ _)) _);
      [discriminate | reflexivity | simpl; lia | reflexivity].
Defined.



(** ** The conversion loop of the manual parse *)

Lemma to_uint_not_nil (n : nat) : Nat.to_uint n <> Decimal.Nil.
Proof.
  rewrite <- (DecimalNat.Unsigned.of_to n) at 1.
  rewrite DecimalNat.Unsigned.to_of.
  unfold Decimal.unorm. destruct (Decimal.nzhead (Nat.to_uint n)); discriminate.
Qed.

(** Different numbers print differently. *)
Lemma str_of_nat_inj (n m : nat) : str_of_nat n = str_of_nat m -> n = m.
Proof.
  unfold str_of_nat. intros H.
  apply (f_equal NilZero.uint_of_string) in H.
  rewrite !NilZero.usu in H by apply to_uint_not_nil.
  injection H as H. apply DecimalNat.Unsigned.to_uint_inj, H.
Qed.

Lemma append_inj_l (p s t : string) : p ++ s = p ++ t -> s = t.
Proof. induction p as [| c p IH]; simpl; [trivial |]. intros [= H]. apply IH, H. Qed.

(** The synthesized column names are pairwise different. *)
Lemma synthesized_headers_NoDup (n : nat) : NoDup (synthesized_headers n).
Proof.
  unfold synthesized_headers. apply Lists.Finite.Injective_map_NoDup.
  - intros i j H. apply append_inj_l, str_of_nat_inj in H. lia.
  - apply seq_NoDup.
Qed.

Section ConvertColumns.

Variable to_num : string -> option scalar.

Local Abbreviation conv :=
  (fun p : string * column => (fst p, checked to_num (snd p))).

Lemma filter_name_none (h : string) (l : list (string * column)) :
  ~ In h (map fst l) -> filter (fun p => String.eqb (fst p) h) l = [].
Proof.
  induction l as [| [k c] l IH]; simpl; intros H; [reflexivity |].
  destruct (String.eqb_spec k h) as [E | _].
  - exfalso. apply H. left. exact E.
  - apply IH. intros Hin. apply H. right. exact Hin.
Qed.

Lemma map_name_none (h : string) (c' : column) (l : list (string * column)) :
  ~ In h (map fst l) ->
  map (fun p => if String.eqb (fst p) h then (fst p, c') else p) l = l.
Proof.
  induction l as [| [k c] l IH]; simpl; intros H; [reflexivity |].
  destruct (String.eqb_spec k h) as [E | _].
  - exfalso. apply H. left. exact E.
  - f_equal. apply IH. intros Hin. apply H. right. exact Hin.
Qed.

Lemma getitem_mid (pre post : list (string * column)) (h : string) (c : column)
    (n : nat) :
  ~ In h (map fst pre) -> ~ In h (map fst post) ->
  getitem (mkDF (pre ++ (h, c) :: post) n) h = SelSeries c.
Proof.
  intros Hp Hq. unfold getitem. cbn [df_cols].
  rewrite filter_app. cbn [filter fst]. rewrite String.eqb_refl.
  rewrite (filter_name_none h pre Hp), (filter_name_none h post Hq). reflexivity.
Qed.

Lemma setitem_mid (pre post : list (string * column)) (h : string)
    (c c' : column) (n : nat) :
  ~ In h (map fst pre) -> ~ In h (map fst post) ->
  setitem (mkDF (pre ++ (h, c) :: post) n) h c' = mkDF (pre ++ (h, c') :: post) n.
Proof.
  intros Hp Hq. unfold setitem. cbn [df_cols df_len].
  rewrite map_app. cbn [map fst]. rewrite String.eqb_refl.
  rewrite (map_name_none h c' pre Hp), (map_name_none h c' post Hq). reflexivity.
Qed.

Lemma checked_of_result (c : column) :
  match to_numeric_col to_num c with
  | Ok c' => checked to_num c = c'
  | Raise _ => checked to_num c = c
  end.
Proof.
  unfold checked. destruct (col_is_numeric c) eqn:Hn.
  - rewrite (to_numeric_col_of_numeric to_num c Hn). reflexivity.
  - destruct (to_numeric_col to_num c); reflexivity.
Qed.

Lemma convert_columns_from (pre post : list (string * column)) (n : nat) :
  NoDup (map fst (pre ++ post)) ->
  convert_columns to_num (map fst post) (mkDF (map conv pre ++ post) n)
  = Ok (mkDF (map conv (pre ++ post)) n).
Proof.
  revert pre. induction post as [| [h c] post IH]; intros pre Hnd.
  - simpl. rewrite !app_nil_r. reflexivity.
  - assert (Hnd' := Hnd). rewrite map_app in Hnd'. cbn [map fst] in Hnd'.
    apply NoDup_remove_2 in Hnd'.
    assert (Hp : ~ In h (map fst (map conv pre))).
    { rewrite map_map. cbn [fst]. intros Hin. apply Hnd', in_or_app. left. exact Hin. }
    assert (Hq : ~ In h (map fst post)).
    { intros Hin. apply Hnd', in_or_app. right. exact Hin. }
    cbn [map fst convert_columns].
    rewrite (getitem_mid _ _ h c n Hp Hq). cbn [to_numeric].
    pose proof (checked_of_result c) as Hc.
    specialize (IH (pre ++ [(h, c)])%list).
    rewrite <- app_assoc in IH. cbn [app] in IH. specialize (IH Hnd).
    rewrite map_app in IH. cbn [map fst snd] in IH.
    rewrite <- app_assoc in IH. cbn [app] in IH.
    destruct (to_numeric_col to_num c) as [c' | e] eqn:Ht.
    + rewrite (setitem_mid _ _ h c c' n Hp Hq). rewrite <- Hc. exact IH.
    + rewrite (to_numeric_col_raises to_num c e Ht). rewrite <- Hc at 1. exact IH.
Qed.

(** On a table whose column names are pairwise different the loop
    converts every column that converts and keeps the others. *)
Lemma convert_columns_unique (df : DataFrame) :
  NoDup (columns df) ->
  convert_columns to_num (columns df) df = Ok (convert_all to_num df).
Proof.
  intros Hnd. destruct df as [cols n]. unfold columns, convert_all. cbn [df_cols df_len].
  exact (convert_columns_from [] cols n Hnd).
Qed.

(** Every column of a converted table is numeric, or is a text column
    that does not convert, kept as it was. *)
Lemma convert_all_columns (df : DataFrame) :
  Forall (fun p => col_is_numeric (snd p) = true
                   \/ (col_is_numeric (snd p) = false
                       /\ coercible to_num (snd p) = false))
         (df_cols (convert_all to_num df)).
Proof.
  unfold convert_all. cbn [df_cols]. apply Forall_map, Forall_forall.
  intros [h c] _. cbn [snd].
  destruct (coercible to_num c) eqn:Hc.
  - left. apply checked_numeric, Hc.
  - right. unfold checked, coercible in *.
    destruct (col_is_numeric c) eqn:Hn.
    + rewrite (to_numeric_col_of_numeric to_num c Hn) in Hc. discriminate.
    + destruct (to_numeric_col to_num c) eqn:Ht; [discriminate |].
      rewrite Hn, Ht. split; reflexivity.
Qed.

End ConvertColumns.

(** ** The manual parse on rectangular input *)

Lemma fold_max_const (k : nat) (r0 : list string) (rs : list (list string)) :
  Forall (fun r => List.length r = k) (r0 :: rs) ->
  fold_right Nat.max 0 (map (@List.length string) (r0 :: rs)) = k.
Proof.
  revert r0. induction rs as [| r1 rs IH]; intros r0 H.
  - inversion H; subst. simpl. lia.
  - inversion H as [| ? ? H0 Hr]; subst.
    change (Nat.max (List.length r0)
              (fold_right Nat.max 0 (map (@List.length string) (r1 :: rs)))
            = List.length r0).
    rewrite (IH r1 Hr). lia.
Qed.

Lemma map_of_snd_combine {A B C} (f : B -> C) (l1 : list A) (l2 : list B) :
  List.length l1 = List.length l2 ->
  map (fun p => f (snd p)) (combine l1 l2) = map f l2.
Proof.
  intros H. rewrite <- (map_snd_combine l1 l2 H) at 2.
  rewrite map_map. reflexivity.
Qed.

Lemma frame_of_rows_rectangular (data_rows : list (list string))
    (headers : list string) :
  Forall (fun r => List.length r = List.length headers) data_rows ->
  frame_of_rows data_rows headers = Ok (object_frame headers data_rows).
Proof.
  intros H. unfold frame_of_rows, object_frame.
  destruct data_rows as [| r0 rs].
  - cbn [map List.length]. f_equal. f_equal.
    symmetry.
    apply (map_of_snd_combine (fun h => (h, ColObj [])) (seq 0 (List.length headers))).
    apply length_seq.
  - rewrite (fold_max_const _ r0 rs H). rewrite Nat.eqb_refl. reflexivity.
Qed.

Lemma object_frame_columns (headers : list string) (data_rows : list (list string)) :
  columns (object_frame headers data_rows) = headers.
Proof.
  unfold columns, object_frame. cbn [df_cols]. rewrite map_map. cbn [fst].
  apply (map_snd_combine (seq 0 (List.length headers)) headers), length_seq.
Qed.

Lemma nth_error_combine_seq {A} (l : list A) (s i : nat) (a : A) :
  nth_error l i = Some a ->
  nth_error (combine (seq s (List.length l)) l) i = Some (s + i, a).
Proof.
  revert s i. induction l as [| b l IH]; intros s [| i] H; simpl in *;
    try discriminate.
  - injection H as ->. rewrite Nat.add_0_r. reflexivity.
  - rewrite (IH (S s) i H). f_equal. f_equal. lia.
Qed.

Section Rectangular.

Variable csv_reader : string -> result (list (list string)).
Variable py_float : string -> option float.
Variable to_num : string -> option scalar.

Lemma manual_parse_of_frame (src : stream) (rows : list (list string))
    (headers : list string) (data_rows : list (list string)) :
  csv_reader (remaining (seek0 src)) = Ok rows ->
  split_header py_float rows = Ok (headers, data_rows) ->
  Forall (fun r => List.length r = List.length headers) data_rows ->
  NoDup headers ->
  manual_parse csv_reader py_float to_num src
  = Ok (convert_all to_num (object_frame headers data_rows)).
Proof.
  intros Hr Hs Hrect Hnd. unfold manual_parse. rewrite Hr. cbn [bind].
  rewrite Hs. cbn [bind fst snd].
  rewrite (frame_of_rows_rectangular _ _ Hrect). cbn [bind].
  apply convert_columns_unique. rewrite object_frame_columns. exact Hnd.
Qed.

Lemma converted_frame_facts (headers : list string) (data_rows : list (list string)) :
  let df := convert_all to_num (object_frame headers data_rows) in
  columns df = headers /\
  df_len df = List.length data_rows /\
  Forall (fun p => col_is_numeric (snd p) = true
                   \/ (col_is_numeric (snd p) = false
                       /\ coercible to_num (snd p) = false)) (df_cols df) /\
  (forall i h, nth_error headers i = Some h ->
     nth_error (df_cols df) i
     = Some (h, checked to_num
                  (ColObj (map (fun r => nth_error r i) data_rows)))).
Proof.
  intros df. split; [| split; [| split]].
  - unfold df, columns, convert_all. cbn [df_cols]. rewrite map_map. cbn [fst].
    apply object_frame_columns.
  - reflexivity.
  - apply convert_all_columns.
  - intros i h Hi. unfold df, convert_all, object_frame. cbn [df_cols].
    rewrite !nth_error_map, (nth_error_combine_seq headers 0 i h Hi).
    reflexivity.
Qed.

End Rectangular.

(** The manual parse succeeds on rectangular input: when every row has
    as many fields as the first and, with a header row, the header names
    are pairwise different, it returns a table with the header names (or
    [Column_1 .. Column_N]), one row per data row, in which the column
    at each position holds the fields at that position, converted to
    numbers when all of them convert and kept as text otherwise. *)
Theorem manual_parse_rectangular
    (csv_reader : string -> result (list (list string)))
    (py_float : string -> option float) (to_num : string -> option scalar)
    (src : stream) (first : string) (fields : list string)
    (rest : list (list string)) :
  let row0 := first :: fields in
  let rows := row0 :: rest in
  let headerless := match py_float first with Some _ => true | None => false end in
  let headers := if headerless then synthesized_headers (List.length row0) else row0 in
  let data_rows := if headerless then rows else rest in
  csv_reader (remaining (seek0 src)) = Ok rows ->
  Forall (fun r => List.length r = List.length row0) rest ->
  (headerless = false -> NoDup row0) ->
  exists df,
    manual_parse csv_reader py_float to_num src = Ok df /\
    columns df = headers /\
    df_len df = List.length data_rows /\
    Forall (fun p => col_is_numeric (snd p) = true
                     \/ (col_is_numeric (snd p) = false
                         /\ coercible to_num (snd p) = false)) (df_cols df) /\
    (forall i h, nth_error headers i = Some h ->
       nth_error (df_cols df) i
       = Some (h, checked to_num
                    (ColObj (map (fun r => nth_error r i) data_rows)))).
Proof.
  intros row0 rows headerless headers data_rows Hr Hrect Hnd.
  exists (convert_all to_num (object_frame headers data_rows)).
  split; [| apply converted_frame_facts].
  apply (manual_parse_of_frame csv_reader py_float to_num src rows).
  - exact Hr.
  - unfold split_header, rows, row0, headers, data_rows, headerless.
    destruct (py_float first); reflexivity.
  - unfold headers, data_rows, headerless.
    destruct (py_float first).
    + rewrite synthesized_headers_length. constructor; [reflexivity | exact Hrect].
    + exact Hrect.
  - unfold headers. unfold headerless in *.
    destruct (py_float first).
    + apply synthesized_headers_NoDup.
    + apply Hnd. reflexivity.
Qed.

Lemma manual_parse_rectangular_witness :
  exists df,
    manual_parse Simple.csv_reader Simple.py_float Simple.to_num
      (StringIO ("1,a" ++ nl ++ "2,b" ++ nl)) = Ok df /\
    columns df = ["Column_1"; "Column_2"] /\
    df_len df = 2 /\
    Forall (fun p => col_is_numeric (snd p) = true
                     \/ (col_is_numeric (snd p) = false
                         /\ coercible Simple.to_num (snd p) = false)) (df_cols df) /\
    (forall i h, nth_error ["Column_1"; "Column_2"] i = Some h ->
       nth_error (df_cols df) i
       = Some (h, checked Simple.to_num
                    (ColObj (map (fun r => nth_error r i) [["1"; "a"]; ["2"; "b"]])))).
Proof.
  apply (manual_parse_rectangular Simple.csv_reader Simple.py_float Simple.to_num
           (StringIO ("1,a" ++ nl ++ "2,b" ++ nl)) "1" ["a"] [["2"; "b"]]).
  - reflexivity.
  - repeat constructor.
  - discriminate.
Defined.

(** ** Duplicate column names *)

Section Duplicates.

Variable to_num : string -> option scalar.

Lemma name_count_setitem (h k : string) (c : column) (df : DataFrame) :
  name_count h (df_cols (setitem df k c)) = name_count h (df_cols df).
Proof.
  unfold name_count, setitem. cbn [df_cols].
  induction (df_cols df) as [| [a v] l IH]; [reflexivity |].
  cbn [map filter fst]. destruct (String.eqb a k); cbn [fst];
    destruct (String.eqb a h); cbn [List.length]; rewrite IH; reflexivity.
Qed.

Lemma name_count_in (h : string) (cols : list (string * column)) :
  In h (map fst cols) -> 1 <= name_count h cols.
Proof.
  unfold name_count. induction cols as [| [a v] l IH]; [intros [] |].
  cbn [map fst filter]. intros [E | Hin].
  - subst. rewrite String.eqb_refl. cbn [List.length]. lia.
  - specialize (IH Hin). destruct (String.eqb a h); cbn [List.length]; lia.
Qed.

Lemma name_count_headers (h : string) (cols : list (string * column)) :
  name_count h cols = List.length (filter (fun k => String.eqb k h) (map fst cols)).
Proof.
  unfold name_count. induction cols as [| [a v] l IH]; [reflexivity |].
  cbn [map fst filter]. destruct (String.eqb a h); cbn [List.length];
    rewrite IH; reflexivity.
Qed.

(** The loop stops with a [TypeError] at the first name that several
    columns bear: [df[col]] is then a DataFrame, which [pd.to_numeric]
    refuses, and the handler catches [ValueError] only. *)
Lemma convert_columns_duplicate (names : list string) (df : DataFrame) (h : string) :
  (forall k, In k names -> 1 <= name_count k (df_cols df)) ->
  In h names ->
  2 <= name_count h (df_cols df) ->
  convert_columns to_num names df = Raise frame_error.
Proof.
  revert df. induction names as [| k r IH]; intros df Hall Hin Hdup; [destruct Hin |].
  cbn [convert_columns].
  assert (Hk : 1 <= name_count k (df_cols df)) by (apply Hall; left; reflexivity).
  unfold getitem. unfold name_count in Hk.
  destruct (filter (fun p => String.eqb (fst p) k) (df_cols df))
    as [| p [| q l]] eqn:Hf.
  - simpl in Hk. lia.
  - assert (Hne : k <> h).
    { intros ->. unfold name_count in Hdup. rewrite Hf in Hdup. simpl in Hdup. lia. }
    assert (Hin' : In h r) by (destruct Hin as [E | Hin]; [contradiction | exact Hin]).
    cbn [to_numeric].
    destruct (to_numeric_col to_num (snd p)) as [c | e] eqn:Ht.
    + apply IH; [| exact Hin' | rewrite name_count_setitem; exact Hdup].
      intros k' Hk'. rewrite name_count_setitem. apply Hall. right. exact Hk'.
    + rewrite (to_numeric_col_raises to_num _ e Ht).
      apply IH; [| exact Hin' | exact Hdup].
      intros k' Hk'. apply Hall. right. exact Hk'.
  - reflexivity.
Qed.

End Duplicates.

(** A header row in which a name occurs twice defeats the manual parse:
    on otherwise rectangular input it raises [TypeError] instead of
    returning a table. *)
Theorem manual_parse_duplicate_header
    (csv_reader : string -> result (list (list string)))
    (py_float : string -> option float) (to_num : string -> option scalar)
    (src : stream) (first : string) (fields : list string)
    (rest : list (list string)) (h : string) :
  let row0 := first :: fields in
  csv_reader (remaining (seek0 src)) = Ok (row0 :: rest) ->
  py_float first = None ->
  Forall (fun r => List.length r = List.length row0) rest ->
  2 <= List.length (filter (fun k => String.eqb k h) row0) ->
  manual_parse csv_reader py_float to_num src
  = Raise (mkExn TypeError "arg must be a list, tuple, 1-d array, or Series").
Proof.
  intros row0 Hr Hf Hrect Hdup. unfold manual_parse. rewrite Hr. cbn [bind].
  unfold split_header. fold row0. unfold row0 at 1. rewrite Hf. cbn [bind fst snd].
  rewrite (frame_of_rows_rectangular _ _ Hrect). cbn [bind].
  assert (Hc : 2 <= name_count h (df_cols (object_frame row0 rest))).
  { rewrite name_count_headers. fold (columns (object_frame row0 rest)).
    rewrite object_frame_columns. exact Hdup. }
  apply (convert_columns_duplicate to_num _ _ h).
  - intros k Hk. apply name_count_in. exact Hk.
  - rewrite object_frame_columns.
    destruct (filter (fun k => String.eqb k h) row0) as [| a l] eqn:E;
      [simpl in Hdup; lia |].
    assert (Ha : In a (filter (fun k => String.eqb k h) row0))
      by (rewrite E; left; reflexivity).
    apply filter_In in Ha. destruct Ha as [Ha Hb].
    apply String.eqb_eq in Hb. subst a. exact Ha.
  - exact Hc.
Qed.

Lemma manual_parse_duplicate_header_witness :
  manual_parse Simple.csv_reader Simple.py_float Simple.to_num
    (StringIO ("id,v,v" ++ nl ++ "1,2,3" ++ nl))
  = Raise (mkExn TypeError "arg must be a list, tuple, 1-d array, or Series").
Proof.
  apply (manual_parse_duplicate_header Simple.csv_reader Simple.py_float
           Simple.to_num (StringIO ("id,v,v" ++ nl ++ "1,2,3" ++ nl))
           "id" ["v"; "v"] [["1"; "2"; "3"]] "v").
  - reflexivity.
  - reflexivity.
  - repeat constructor.
  - simpl. lia.
Defined.

(** ** The viewers *)

Section Viewers.

Variable E : Sink.env.
Variable path : string.

Lemma try_viewers_passed_over (cmds : list string) :
  Forall (fun cmd => passed_over (Sink.run_viewer E cmd path) = true) cmds ->
  Sink.try_viewers E path cmds = (viewer_calls cmds path, Ok false).
Proof.
  induction cmds as [| cmd r IH]; intros H; [reflexivity |].
  inversion H as [| ? ? Hc Hr]; subst. cbn [Sink.try_viewers].
  rewrite (IH Hr).
  destruct (Sink.run_viewer E cmd path); try discriminate; reflexivity.
Qed.

Lemma try_viewers_opens (pre post : list string) (cmd : string) :
  Forall (fun c => passed_over (Sink.run_viewer E c path) = true) pre ->
  Sink.run_viewer E cmd path = Sink.Opened ->
  Sink.try_viewers E path (pre ++ cmd :: post)
  = (viewer_calls (pre ++ [cmd]) path, Ok true).
Proof.
  intros Hpre Hcmd. induction pre as [| c r IH].
  - cbn [app Sink.try_viewers]. rewrite Hcmd. reflexivity.
  - inversion Hpre as [| ? ? Hc Hr]; subst.
    cbn [app Sink.try_viewers]. rewrite (IH Hr).
    destruct (Sink.run_viewer E c path); try discriminate; reflexivity.
Qed.

Lemma try_viewers_crashes (pre post : list string) (cmd : string) (e : exn) :
  Forall (fun c => passed_over (Sink.run_viewer E c path) = true) pre ->
  Sink.run_viewer E cmd path = Sink.Crashed e ->
  Sink.try_viewers E path (pre ++ cmd :: post)
  = (viewer_calls (pre ++ [cmd]) path, Raise e).
Proof.
  intros Hpre Hcmd. induction pre as [| c r IH].
  - cbn [app Sink.try_viewers]. rewrite Hcmd. reflexivity.
  - inversion Hpre as [| ? ? Hc Hr]; subst.
    cbn [app Sink.try_viewers]. rewrite (IH Hr).
    destruct (Sink.run_viewer E c path); try discriminate; reflexivity.
Qed.

End Viewers.

(** With [--viewer] the chart is saved to the temporary file and opened
    in the first viewer of the preference list that runs; the viewers
    before it are tried in order, none after it is run, and the step
    ends without error. *)
Theorem view_opens_first_working (E : Sink.env) (dpi : Z)
    (pre post : list string) (cmd : string) :
  Sink.viewers = (pre ++ cmd :: post)%list ->
  Sink.savefig E (Sink.tmp_name E) dpi = None ->
  Forall (fun c => passed_over (Sink.run_viewer E c (Sink.tmp_name E)) = true) pre ->
  Sink.run_viewer E cmd (Sink.tmp_name E) = Sink.Opened ->
  Sink.save_or_display E None true dpi
  = ((Sink.SaveFig (Sink.tmp_name E) dpi
      :: Sink.Echo "Opening chart in image viewer..."
      :: viewer_calls (pre ++ [cmd]) (Sink.tmp_name E))%list,
     None).
Proof.
  intros Hv Hs Hpre Hcmd. unfold Sink.save_or_display, Sink.view.
  rewrite Hs, Hv, (try_viewers_opens E _ pre post cmd Hpre Hcmd). reflexivity.
Qed.

Lemma view_opens_first_working_witness :
  Sink.save_or_display SinkExamples.only_eog None true 100
  = ([Sink.SaveFig "/tmp/tmpchart.png" 100;
      Sink.Echo "Opening chart in image viewer...";
      Sink.RunViewer "feh" "/tmp/tmpchart.png";
      Sink.RunViewer "eog" "/tmp/tmpchart.png"],
     None).
Proof.
  apply (view_opens_first_working SinkExamples.only_eog 100%Z ["feh"]
           ["gwenview"; "ristretto"; "xdg-open"] "eog").
  - reflexivity.
  - reflexivity.
  - repeat constructor.
  - reflexivity.
Defined.

(** When every viewer is missing or fails, all five are tried in order,
    the message names the temporary file the chart was saved to, and
    the step still ends without error. *)
Theorem view_without_viewer (E : Sink.env) (dpi : Z) :
  Sink.savefig E (Sink.tmp_name E) dpi = None ->
  Forall (fun c => passed_over (Sink.run_viewer E c (Sink.tmp_name E)) = true)
         Sink.viewers ->
  Sink.save_or_display E None true dpi
  = ((Sink.SaveFig (Sink.tmp_name E) dpi
      :: Sink.Echo "Opening chart in image viewer..."
      :: viewer_calls Sink.viewers (Sink.tmp_name E)
      ++ [Sink.Echo ("Could not find image viewer. Chart saved to "
                     ++ Sink.tmp_name E)])%list,
     None).
Proof.
  intros Hs Hall. unfold Sink.save_or_display, Sink.view.
  rewrite Hs, (try_viewers_passed_over E _ Sink.viewers Hall). reflexivity.
Qed.

Lemma view_without_viewer_witness :
  Sink.save_or_display SinkExamples.no_viewer None true 100
  = ([Sink.SaveFig "/tmp/tmpchart.png" 100;
      Sink.Echo "Opening chart in image viewer...";
      Sink.RunViewer "feh" "/tmp/tmpchart.png";
      Sink.RunViewer "eog" "/tmp/tmpchart.png";
      Sink.RunViewer "gwenview" "/tmp/tmpchart.png";
      Sink.RunViewer "ristretto" "/tmp/tmpchart.png";
      Sink.RunViewer "xdg-open" "/tmp/tmpchart.png";
      Sink.Echo "Could not find image viewer. Chart saved to /tmp/tmpchart.png"],
     None).
Proof.
  apply (view_without_viewer SinkExamples.no_viewer 100%Z).
  - reflexivity.
  - repeat constructor.
Defined.

(** A viewer that raises anything but the two exceptions the loop names
    ends the loop: no later viewer is tried and the exception leaves the
    step. *)
Theorem view_crash_stops_loop (E : Sink.env) (dpi : Z)
    (pre post : list string) (cmd : string) (e : exn) :
  Sink.viewers = (pre ++ cmd :: post)%list ->
  Sink.savefig E (Sink.tmp_name E) dpi = None ->
  Forall (fun c => passed_over (Sink.run_viewer E c (Sink.tmp_name E)) = true) pre ->
  Sink.run_viewer E cmd (Sink.tmp_name E) = Sink.Crashed e ->
  Sink.save_or_display E None true dpi
  = ((Sink.SaveFig (Sink.tmp_name E) dpi
      :: Sink.Echo "Opening chart in image viewer..."
      :: viewer_calls (pre ++ [cmd]) (Sink.tmp_name E))%list,
     Some e).
Proof.
  intros Hv Hs Hpre Hcmd. unfold Sink.save_or_display, Sink.view.
  rewrite Hs, Hv, (try_viewers_crashes E _ pre post cmd e Hpre Hcmd). reflexivity.
Qed.

Lemma view_crash_stops_loop_witness :
  Sink.save_or_display SinkExamples.interrupted None true 100
  = ([Sink.SaveFig "/tmp/tmpchart.png" 100;
      Sink.Echo "Opening chart in image viewer...";
      Sink.RunViewer "feh" "/tmp/tmpchart.png";
      Sink.RunViewer "eog" "/tmp/tmpchart.png"],
     Some (mkExn KeyboardInterrupt "")).
Proof.
  apply (view_crash_stops_loop SinkExamples.interrupted 100%Z ["feh"]
           ["gwenview"; "ristretto"; "xdg-open"] "eog"
           (mkExn KeyboardInterrupt "")).
  - reflexivity.
  - reflexivity.
  - repeat constructor.
  - reflexivity.
Defined.

(** ** The command as a whole *)

(** Whatever the input, the parsers and the surroundings do, the
    command ends normally or with a [ClickException] or [click.Abort]:
    no other exception leaves [main]. An interrupt is the only way to
    [click.Abort], and it is announced last. *)
Theorem main_raises_click_errors_only
    (read_csv : string -> result DataFrame)
    (csv_reader : string -> result (list (list string)))
    (py_float : string -> option float) (to_num : string -> option scalar)
    (hexbin_array : list float -> list float -> Z -> list float)
    (E : Sink.env) (file : stream) (title output : option string)
    (requested : chart_type) (gridsize dpi : Z) (viewer : bool) :
  let run := main_with_output read_csv csv_reader py_float to_num hexbin_array
               E file title output requested gridsize dpi viewer in
  is_click_error (snd run) = true /\
  (snd run = Raise (mkExn ClickAbort "") ->
   exists t, fst run = (t ++ [Sink.Echo (nl ++ "Operation cancelled by user")])%list).
Proof.
  intros run. unfold run, main_with_output.
  destruct (main_body _ _ _ _ _ _ _ _ _) as [fig | e].
  - destruct (Sink.save_or_display E output viewer dpi) as [t [e |]].
    + unfold Sink.handle. destruct e as [[] m]; cbn; split;
        try reflexivity; try discriminate; intros _; exists t; reflexivity.
    + cbn. split; [reflexivity | discriminate].
  - unfold Sink.handle. destruct e as [[] m]; cbn; split;
      try reflexivity; try discriminate; intros _; exists []; reflexivity.
Qed.

(** A file that is not piped and holds nothing is reported as "CSV file
    is empty": the trusting parse raises, the manual parse finds no row,
    and [main] passes its message on. *)
Theorem main_empty_file
    (read_csv : string -> result DataFrame)
    (csv_reader : string -> result (list (list string)))
    (py_float : string -> option float) (to_num : string -> option scalar)
    (hexbin_array : list float -> list float -> Z -> list float)
    (file : stream) (title : option string) (requested : chart_type)
    (gridsize : Z) (e : exn) :
  String.eqb (st_name file) "<stdin>" = false ->
  read_csv (remaining file) = Raise e ->
  is_Exception e = true ->
  csv_reader (remaining (seek0 file)) = Ok [] ->
  main read_csv csv_reader py_float to_num hexbin_array file title requested gridsize
  = Raise (mkExn ClickException "CSV file is empty").
Proof.
  intros Hn Hr He Hc. unfold main, main_body, read_csv_data. rewrite Hn.
  cbn [bind]. unfold parse_csv. rewrite Hr, He.
  unfold manual_parse. rewrite Hc. reflexivity.
Qed.

Lemma main_empty_file_witness :
  main Simple.read_csv Simple.csv_reader Simple.py_float Simple.to_num
       Simple.no_bins (mkStream "data.csv" "" 0) None auto 20
  = Raise (mkExn ClickException "CSV file is empty").
Proof.
  apply (main_empty_file Simple.read_csv Simple.csv_reader Simple.py_float
           Simple.to_num Simple.no_bins (mkStream "data.csv" "" 0) None auto 20%Z
           (mkExn EmptyDataError "No columns to parse from file"));
    reflexivity.
Defined.

(** ** The theme *)

(** The theme never fails on a missing colour: every palette key that
    [setup_everforest_theme], the renderers and the output step read is
    defined once in [EVERFOREST_COLORS], and every colour of the palette
    is written [#rrggbb]. *)
Theorem palette_is_complete :
  NoDup (map fst EVERFOREST_COLORS) /\
  forallb (fun p => is_hex_color (snd p)) EVERFOREST_COLORS = true /\
  raises setup_everforest_theme = false /\
  (forall key, In key (map snd theme_colors ++ renderer_colors)%list ->
     exists v, color key = Ok v /\ is_hex_color v = true).
Proof.
  split; [| split; [| split]].
  - repeat constructor; simpl; intros H;
      repeat (destruct H as [H | H]; [discriminate |]); exact H.
  - reflexivity.
  - reflexivity.
  - intros key H. simpl in H.
    repeat (destruct H as [<- | H]; [eexists; split; reflexivity |]).
    destruct H.
Qed.

(** ** Further runs of the lemmas above *)

Lemma scatter_text_always_present_witness :
  exists fig t,
    fst (create_scatter_plot Simple.to_num None Examples.linear) = Ok fig /\
    fig_text fig = Some t.
Proof.
  destruct (scatter_text_always_present Simple.to_num None Examples.linear
              _ eq_refl) as [t Ht].
  eexists. exists t. split; [reflexivity | exact Ht].
Defined.

Lemma validation_numeric_x_untouched_witness :
  snd (create_scatter_plot Simple.to_num None Examples.numeric_x_text_y)
  = Examples.numeric_x_text_y.
Proof.
  apply (validation_numeric_x_untouched Simple.to_num "id" "x" "y" None
           (ColInt [1; 2]%Z) (ColInt [1; 2]%Z) (ColObj [Some "a"; Some "b"]) 2
           names_id_x_y); reflexivity.
Defined.

(** ** Rows longer than the header *)

Lemma length_le_fold_max (r : list string) (rows : list (list string)) :
  In r rows ->
  List.length r <= fold_right Nat.max 0 (map (@List.length string) rows).
Proof.
  induction rows as [| r0 rs IH]; [intros [] |].
  cbn [map fold_right]. intros [-> | H]; [lia |].
  specialize (IH H). lia.
Qed.

(** The manual parse cannot repair a data row with more fields than
    the header: the table constructor refuses the rows with a
    [ValueError] that gives both widths. *)
Theorem manual_parse_long_row
    (csv_reader : string -> result (list (list string)))
    (py_float : string -> option float) (to_num : string -> option scalar)
    (src : stream) (rows : list (list string))
    (headers : list string) (data_rows : list (list string)) (r : list string) :
  csv_reader (remaining (seek0 src)) = Ok rows ->
  split_header py_float rows = Ok (headers, data_rows) ->
  In r data_rows ->
  List.length headers < List.length r ->
  manual_parse csv_reader py_float to_num src
  = Raise (mkExn ValueError
             (str_of_nat (List.length headers) ++ " columns passed, passed data had "
                ++ str_of_nat (fold_right Nat.max 0
                                 (map (@List.length string) data_rows))
                ++ " columns")).
Proof.
  intros Hr Hs Hin Hlt. unfold manual_parse. rewrite Hr. cbn [bind].
  rewrite Hs. cbn [bind fst snd]. unfold frame_of_rows.
  pose proof (length_le_fold_max r data_rows Hin) as Hle.
  destruct data_rows as [| r0 rs]; [destruct Hin |].
  destruct (Nat.eqb_spec (fold_right Nat.max 0 (map (@List.length string) (r0 :: rs)))
                         (List.length headers)) as [E | _]; [lia |].
  reflexivity.
Qed.

Lemma manual_parse_long_row_witness :
  manual_parse Simple.csv_reader Simple.py_float Simple.to_num
    (StringIO ("a,b" ++ nl ++ "1,2" ++ nl ++ "3,4,5,6" ++ nl))
  = Raise (mkExn ValueError "2 columns passed, passed data had 4 columns").
Proof.
  apply (manual_parse_long_row Simple.csv_reader Simple.py_float Simple.to_num
           (StringIO ("a,b" ++ nl ++ "1,2" ++ nl ++ "3,4,5,6" ++ nl))
           [["a"; "b"]; ["1"; "2"]; ["3"; "4"; "5"; "6"]]
           ["a"; "b"] [["1"; "2"]; ["3"; "4"; "5"; "6"]] ["3"; "4"; "5"; "6"]).
  - reflexivity.
  - reflexivity.
  - right. left. reflexivity.
  - simpl. lia.
Defined.

(** The dispatch of [main] is [render] on the resolved chart type. *)
Lemma main_body_dispatch
    (read_csv : string -> result DataFrame)
    (csv_reader : string -> result (list (list string)))
    (py_float : string -> option float) (to_num : string -> option scalar)
    (hexbin_array : list float -> list float -> Z -> list float)
    (file : stream) (title : option string) (requested : chart_type)
    (gridsize : Z) :
  main_body read_csv csv_reader py_float to_num hexbin_array
            file title requested gridsize
  = (data_source <- read_csv_data file ;;
     df <- parse_csv read_csv csv_reader py_float to_num data_source ;;
     c <- select_chart requested (List.length (columns df)) ;;
     fst (render to_num hexbin_array c title gridsize df)).
Proof.
  unfold main_body, bind.
  destruct (read_csv_data file) as [src |]; [| reflexivity].
  destruct (parse_csv _ _ _ _ src) as [df |]; [| reflexivity].
  destruct (select_chart _ _) as [[] |]; reflexivity.
Qed.
